(** * add_view_subtasks.py: a one-shot edit of the task-tracking document

    The script loads [.taskmaster/tasks/tasks.json], looks for the subtask
    with identifier 13 under the task with identifier 20, overwrites that
    subtask's ['subtasks'] entry with nine literal records, stores the record
    again at index 12 of the owning task's subtask list, dumps the document
    back to the same path and prints a summary.

    The development follows the script line by line:
    - [Json]: the values [json.load] produces and the Python operations the
      script applies to them (subscription, [dict.get], item assignment,
      iteration, [==] against an integer literal, truthiness, [str]);
    - [Script]: the statements of the script, over a world made of the file
      store, the standard output and the sequence of file operations;
    - the observations the properties are stated with, and a few concrete
      documents;
    - facts about dicts, the search, the edit and the run;
    - the theorems, one per property of the specification, each followed
      further down by its instance at a concrete document. *)

From Stdlib Require Import ZArith Lia Strings.Ascii.
From Stdlib Require Import Floats.SpecFloat.
From stdpp Require Import base tactics option list numbers strings pretty gmap fin_maps.

Local Open Scope string_scope.
Set Warnings "-register-all".

(** ** Exceptions and results *)

(** The exceptions the script can end with.  [SystemExit] is what the
    builtin [exit] raises; the others are uncaught faults.  [Unmodelled]
    marks what this development does not describe ([str] of floats and
    containers, an integer key stored in a dict); the script never reaches
    it. *)
Inductive exn :=
  | KeyError
  | TypeError
  | IndexError
  | ValueError
  | AttributeError
  | FileNotFoundError
  | JSONDecodeError
  | SystemExit (code : Z)
  | Unmodelled.

Inductive res (A : Type) :=
  | Ok (a : A)
  | Raise (e : exn).
Arguments Ok {A} a.
Arguments Raise {A} e.

(** Sequencing: the first exception raised ends the computation.  With the
    two instances the statements below read [x ← m; k]. *)
#[global] Instance res_ret : MRet res := fun A a => Ok a.
#[global] Instance res_bind : MBind res := fun A B k m =>
  match m with
  | Ok a => k a
  | Raise e => Raise e
  end.

(** ** JSON values as Python sees them *)

Module Json.

(** What [json.load] builds: [None], [bool], [int], [float], [str], [list]
    and [dict].  A dict keeps its keys in insertion order, which is the order
    [json.dump] writes them in, so it is an association list; [json.load]
    never produces two entries with one key, and no operation below creates
    a second entry for a key that is present.  A float is its sign, mantissa
    and exponent.  A [str] is a [string] with one [ascii] per character; the
    text of the script is ASCII but for the check mark of the success line,
    which is held as its UTF-8 bytes. *)
Inductive json :=
  | JNull
  | JBool (b : bool)
  | JInt (n : Z)
  | JFloat (f : spec_float)
  | JStr (s : string)
  | JList (items : list json)
  | JObj (fields : list (string * json)).

(** [d[key]] and [key in d] on the entries of a dict. *)
Fixpoint dict_lookup (key : string) (fields : list (string * json)) : option json :=
  match fields with
  | [] => None
  | (k, v) :: rest => if String.eqb k key then Some v else dict_lookup key rest
  end.

(** [d[key] = v]: the value is replaced where the key sits, a new key goes
    to the end. *)
Fixpoint dict_store (key : string) (v : json) (fields : list (string * json))
  : list (string * json) :=
  match fields with
  | [] => [(key, v)]
  | (k, w) :: rest =>
      if String.eqb k key then (k, v) :: rest else (k, w) :: dict_store key v rest
  end.

(** [obj[key]] with a string key: a dict answers or raises [KeyError];
    lists and strings want integer indices, the other values are not
    subscriptable; both are [TypeError]. *)
Definition py_getitem (obj : json) (key : string) : res json :=
  match obj with
  | JObj fields =>
      match dict_lookup key fields with
      | Some v => Ok v
      | None => Raise KeyError
      end
  | _ => Raise TypeError
  end.

(** [obj.get(key, default)]: only dicts have the method. *)
Definition py_get (obj : json) (key : string) (default : json) : res json :=
  match obj with
  | JObj fields =>
      match dict_lookup key fields with
      | Some v => Ok v
      | None => Ok default
      end
  | _ => Raise AttributeError
  end.

(** [obj[key] = v] with a string key. *)
Definition py_setitem (obj : json) (key : string) (v : json) : res json :=
  match obj with
  | JObj fields => Ok (JObj (dict_store key v fields))
  | _ => Raise TypeError
  end.

(** The characters of a string, each a string of length one. *)
Fixpoint chars (s : string) : list json :=
  match s with
  | EmptyString => []
  | String c rest => JStr (String c EmptyString) :: chars rest
  end.

(** [seq[i]] and [seq[i] = v] with a non-negative integer index; out of
    range is [IndexError].  A dict has no integer key after [json.load];
    storing one would create it, which [json] cannot hold. *)
Definition py_index (seq : json) (i : nat) : res json :=
  match seq with
  | JList items =>
      match items !! i with
      | Some v => Ok v
      | None => Raise IndexError
      end
  | JObj _ => Raise KeyError
  | JStr s =>
      match chars s !! i with
      | Some v => Ok v
      | None => Raise IndexError
      end
  | _ => Raise TypeError
  end.

Definition py_index_store (seq : json) (i : nat) (v : json) : res json :=
  match seq with
  | JList items =>
      if decide (i < length items)%nat then Ok (JList (<[i := v]> items))
      else Raise IndexError
  | JObj _ => Raise Unmodelled
  | _ => Raise TypeError
  end.

(** What a [for] loop (or [enumerate]) runs over: the elements of a list,
    the keys of a dict, the characters of a string; the other values are
    not iterable. *)
Definition py_iter (v : json) : res (list json) :=
  match v with
  | JList items => Ok items
  | JObj fields => Ok (map (fun kv => JStr (fst kv)) fields)
  | JStr s => Ok (chars s)
  | _ => Raise TypeError
  end.

(** The exact value of a finite float [m * 2^e] equals the integer [n]. *)
Definition float_eq_int (f : spec_float) (n : Z) : bool :=
  match f with
  | S754_zero _ => Z.eqb n 0
  | S754_finite s m e =>
      let sm := if s then Z.neg m else Z.pos m in
      if Z.leb 0 e then Z.eqb (sm * 2 ^ e) n
      else Z.eqb sm (n * 2 ^ (- e))
  | _ => false
  end.

(** [v == n] for an integer literal [n]: numbers compare by value ([bool]
    is a number), everything else is unequal. *)
Definition py_eq_int (v : json) (n : Z) : bool :=
  match v with
  | JInt m => Z.eqb m n
  | JBool b => Z.eqb (if b then 1 else 0) n
  | JFloat f => float_eq_int f n
  | _ => false
  end.

(** Truth value, as [if] and [not] take it. *)
Definition py_truthy (v : json) : bool :=
  match v with
  | JNull => false
  | JBool b => b
  | JInt n => negb (Z.eqb n 0)
  | JFloat (S754_zero _) => false
  | JFloat _ => true
  | JStr s => negb (String.eqb s "")
  | JList items => negb (Nat.eqb (length items) 0)
  | JObj fields => negb (Nat.eqb (length fields) 0)
  end.

(** The number of decimal digits of an integer, and the most [str] converts:
    4300, the default of [sys.int_max_str_digits]. *)
Definition digits (n : Z) : nat := String.length (pretty (Z.abs n)).

Definition int_max_str_digits : nat := 4300.

(** [str(v)], which is also what an f-string inserts: an [int] in decimal,
    a [str] as it is.  An [int] of more than 4300 digits raises
    [ValueError]. *)
Definition py_str (v : json) : res string :=
  match v with
  | JNull => Ok "None"
  | JBool true => Ok "True"
  | JBool false => Ok "False"
  | JInt n =>
      if Nat.leb (digits n) int_max_str_digits then Ok (pretty n)
      else Raise ValueError
  | JStr s => Ok s
  | _ => Raise Unmodelled
  end.

(** [sep.join(parts)] *)
Fixpoint join (sep : string) (parts : list string) : string :=
  match parts with
  | [] => ""
  | [p] => p
  | p :: rest => p ++ sep ++ join sep rest
  end.

Fixpoint map_res {A B} (f : A → res B) (l : list A) : res (list B) :=
  match l with
  | [] => Ok []
  | a :: rest => b ← f a; bs ← map_res f rest; Ok (b :: bs)
  end.

End Json.
Export Json.

(** ** The script *)

Module Script.

(** The [json] module of the Python library, as the script uses it:
    [json.load] on the text of a file ([None] stands for the decoding error
    it raises) and [json.dump] with an [indent]. *)
Class JsonCodec (text : Type) := {
  json_load : text → option json;
  json_dump : nat → json → text
}.

(** Each opening of a file, in the order the script performs them: for
    reading, or for writing together with the text written. *)
Inductive io_event (text : Type) :=
  | IoRead (path : string)
  | IoWrite (path : string) (content : text).
Arguments IoRead {text} path.
Arguments IoWrite {text} path content.

(** What the script acts on: the file store, the strings handed to [print]
    (one per call, oldest first) and the file operations so far.

    The world describes runs on a platform that takes what the script hands
    it: a standard output that accepts and encodes every line, the check
    mark of the success line included, and a file that can be opened for
    writing and written whole.  A fault of the platform at one of those
    points (an output that cannot encode the check mark or is closed, a full
    disk, a flush that fails when the interpreter shuts down) is outside the
    model; the statements below are about the runs in which there is none. *)
Record world (text : Type) := World {
  files : gmap string text;
  stdout : list string;
  io_log : list (io_event text)
}.
Arguments World {text} files stdout io_log.
Arguments files {text} w.
Arguments stdout {text} w.
Arguments io_log {text} w.

(** A statement runs in a world and ends normally or with an exception. *)
Definition prog (text A : Type) : Type := world text → res A * world text.

#[global] Instance prog_ret {text} : MRet (prog text) := fun A a w => (Ok a, w).
#[global] Instance prog_bind {text} : MBind (prog text) := fun A B k m w =>
  match m w with
  | (Ok a, w') => k a w'
  | (Raise e, w') => (Raise e, w')
  end.

(** The location of the subtask the search stopped at.  [json.load] builds a
    tree in which no object occurs twice, so the object the script binds to
    [task_20_13] is the one sitting at [data['tasks'][owner]['subtasks'][position]]
    and an assignment through [task_20_13] is an assignment at that place. *)
Record hit := Hit {
  owner : nat;
  position : nat;
  record : json
}.

Definition new_subtasks : list json :=
  [ JObj
    [ ("id", JInt 1);
      ("title", JStr "View Switching Infrastructure");
      ("description", JStr "Create ViewSwitcher component in DatabaseToolbar and add view state management");
      ("status", JStr "pending");
      ("priority", JStr "high");
      ("dependencies", JList []);
      ("details", JStr "Create ViewSwitcher component in DatabaseToolbar, add view state management to useDatabaseBlock hook, implement view persistence in database. This provides the foundation for switching between different view types.");
      ("testStrategy", JStr "Test view switching functionality, verify state persistence, test view transitions") ];
    JObj
    [ ("id", JInt 2);
      ("title", JStr "View-Specific Filtering UI");
      ("description", JStr "Create ViewFilters component with grouping UI and date range picker");
      ("status", JStr "pending");
      ("priority", JStr "high");
      ("dependencies", JList [JInt 1]);
      ("details", JStr "Create ViewFilters component for view-specific filter options, add grouping UI for kanban/calendar views, implement date range picker for calendar/timeline views.");
      ("testStrategy", JStr "Test filter UI responsiveness, verify grouping functionality, test date range selection") ];
    JObj
    [ ("id", JInt 3);
      ("title", JStr "Drag & Drop Infrastructure");
      ("description", JStr "Install and setup @dnd-kit with reusable drag utilities");
      ("status", JStr "pending");
      ("priority", JStr "high");
      ("dependencies", JList []);
      ("details", JStr "Install @dnd-kit/core and @dnd-kit/sortable, create reusable DragContext and drag utilities, implement drag overlay and collision detection for smooth drag operations.");
      ("testStrategy", JStr "Test drag and drop functionality, verify collision detection, test performance with many draggable items") ];
    JObj
    [ ("id", JInt 4);
      ("title", JStr "Gallery View Implementation");
      ("description", JStr "Create DatabaseGallery component with virtual grid and card display");
      ("status", JStr "pending");
      ("priority", JStr "medium");
      ("dependencies", JList [JInt 1]);
      ("details", JStr "Create DatabaseGallery component with virtual grid using react-window, implement card-based display with cover images, add gallery-specific toolbar and settings.");
      ("testStrategy", JStr "Test virtual scrolling with 50k+ cards, verify image loading performance, test responsive grid layout") ];
    JObj
    [ ("id", JInt 5);
      ("title", JStr "Kanban View Implementation");
      ("description", JStr "Create DatabaseKanban with drag-drop between columns");
      ("status", JStr "pending");
      ("priority", JStr "medium");
      ("dependencies", JList [JInt 1; JInt 3]);
      ("details", JStr "Create DatabaseKanban component with virtual columns, implement drag-and-drop between columns using @dnd-kit, add column management (add/edit/delete columns).");
      ("testStrategy", JStr "Test drag-drop between columns, verify performance with many cards, test column management operations") ];
    JObj
    [ ("id", JInt 6);
      ("title", JStr "Calendar View Implementation");
      ("description", JStr "Create DatabaseCalendar with month/week/day views");
      ("status", JStr "pending");
      ("priority", JStr "medium");
      ("dependencies", JList [JInt 1; JInt 2]);
      ("details", JStr "Create DatabaseCalendar component with month/week/day views, implement date navigation and event display, add calendar-specific date filtering and event management.");
      ("testStrategy", JStr "Test view switching (month/week/day), verify event rendering, test date navigation performance") ];
    JObj
    [ ("id", JInt 7);
      ("title", JStr "Timeline View Implementation");
      ("description", JStr "Create DatabaseTimeline with horizontal scrolling");
      ("status", JStr "pending");
      ("priority", JStr "medium");
      ("dependencies", JList [JInt 1; JInt 2]);
      ("details", JStr "Create DatabaseTimeline component with horizontal scrolling, implement timeline navigation and zoom controls, add timeline-specific date range filtering.");
      ("testStrategy", JStr "Test horizontal scrolling performance, verify zoom functionality, test with large date ranges") ];
    JObj
    [ ("id", JInt 8);
      ("title", JStr "View Performance Optimization");
      ("description", JStr "Implement view-specific optimizations and transitions");
      ("status", JStr "pending");
      ("priority", JStr "high");
      ("dependencies", JList [JInt 4; JInt 5; JInt 6; JInt 7]);
      ("details", JStr "Implement view-specific virtual scrolling optimizations, add view transition animations and loading states, optimize data fetching for each view type to handle 50k+ records.");
      ("testStrategy", JStr "Benchmark performance with 50k+ records, measure view transition times, profile memory usage") ];
    JObj
    [ ("id", JInt 9);
      ("title", JStr "View Testing & Integration");
      ("description", JStr "Create comprehensive test suite for all views");
      ("status", JStr "pending");
      ("priority", JStr "high");
      ("dependencies", JList [JInt 8]);
      ("details", JStr "Create comprehensive test suite for all views, test 50k+ record performance across all views, integration testing with existing database features (formulas, filtering, sorting).");
      ("testStrategy", JStr "Run performance benchmarks, verify data consistency across views, test mobile responsiveness") ] ].

Definition tasks_file : string := ".taskmaster/tasks/tasks.json".

(** Lines 20-24: the inner loop over the subtasks of the task at index [i],
    [j] being the index [enumerate] has reached. *)
Fixpoint scan_subtasks (i j : nat) (subtasks : list json) : res (option hit) :=
  match subtasks with
  | [] => Ok None
  | subtask :: rest =>
      id ← py_getitem subtask "id";
      if py_eq_int id 13 then Ok (Some (Hit i j subtask))
      else scan_subtasks i (S j) rest
  end.

(** Lines 18-25: the outer loop; the [break] of line 25 ends it at the first
    task whose id equals 20, whatever the inner loop found. *)
Fixpoint scan_tasks (i : nat) (tasks : list json) : res (option hit) :=
  match tasks with
  | [] => Ok None
  | task :: rest =>
      id ← py_getitem task "id";
      if py_eq_int id 20 then
        subtasks_v ← py_get task "subtasks" (JList []);
        subtasks ← py_iter subtasks_v;
        scan_subtasks i 0 subtasks
      else scan_tasks (S i) rest
  end.

(** Lines 14-25. *)
Definition find_task_20_13 (data : json) : res (option hit) :=
  tasks_v ← py_getitem data "tasks";
  tasks ← py_iter tasks_v;
  scan_tasks 0 tasks.

(** [data['tasks'][i]['subtasks']] *)
Definition subtasks_of (data : json) (i : nat) : res json :=
  tasks ← py_getitem data "tasks";
  task ← py_index tasks i;
  py_getitem task "subtasks".

(** The document after the list [data['tasks'][i]['subtasks']] has become
    [subtasks']: Python changes the list in place, here the path to it is
    rebuilt. *)
Definition with_subtasks (data : json) (i : nat) (subtasks' : json) : res json :=
  tasks ← py_getitem data "tasks";
  task ← py_index tasks i;
  task' ← py_setitem task "subtasks" subtasks';
  tasks' ← py_index_store tasks i task';
  py_setitem data "tasks" tasks'.

(** [data['tasks'][i]['subtasks'][k] = v] *)
Definition store_subtask (data : json) (i k : nat) (v : json) : res json :=
  subtasks ← subtasks_of data i;
  subtasks' ← py_index_store subtasks k v;
  with_subtasks data i subtasks'.

(** Lines 125-129, on the document and the subtask found.  Line 126 assigns
    through [task_20_13], which the document sees at the place the object
    sits; line 129 stores the same object at index 12.  From then on both
    indices refer to one object; nothing is assigned afterwards, and
    [json.dump] writes the record at both. *)
Definition add_subtasks (data : json) (h : hit) : res json :=
  task_20_13 ← py_setitem (record h) "subtasks" (JList new_subtasks);
  data ← store_subtask data (owner h) (position h) task_20_13;
  store_subtask data (owner h) 12 task_20_13.

(** Lines 138-139: the text printed for one record. *)
Definition summary_line (subtask : json) : res string :=
  dependencies ← py_getitem subtask "dependencies";
  deps ← (if py_truthy dependencies then
            items ← py_iter dependencies;
            parts ← map_res py_str items;
            Ok (" (depends on: " ++ join ", " parts ++ ")")
          else Ok "");
  id ← py_getitem subtask "id";
  id_s ← py_str id;
  title ← py_getitem subtask "title";
  title_s ← py_str title;
  Ok ("  20.13." ++ id_s ++ " - " ++ title_s ++ deps).

Section Run.
Context {text : Type} `{!JsonCodec text}.

Definition lift {A} (r : res A) : prog text A := fun w => (r, w).

(** [with open(path, 'r') as f: ... json.load(f)] *)
Definition load_json (path : string) : prog text json := fun w =>
  match files w !! path with
  | None => (Raise FileNotFoundError, w)
  | Some content =>
      let w' := World (files w) (stdout w) (io_log w ++ [IoRead path]) in
      match json_load content with
      | Some data => (Ok data, w')
      | None => (Raise JSONDecodeError, w')
      end
  end.

(** [with open(path, 'w') as f: json.dump(data, f, indent=indent)], on a
    platform where the file opens and the write goes through. *)
Definition dump_json (path : string) (indent : nat) (data : json) : prog text unit :=
  fun w =>
    let content := json_dump indent data in
    (Ok tt, World (<[path := content]> (files w)) (stdout w)
                  (io_log w ++ [IoWrite path content])).

(** [print(s)], on a standard output that accepts [s]. *)
Definition print (s : string) : prog text unit := fun w =>
  (Ok tt, World (files w) (stdout w ++ [s]) (io_log w)).

Definition py_exit {A} (code : Z) : prog text A := lift (Raise (SystemExit code)).

(** [for x in xs: body] *)
Fixpoint for_each {A} (xs : list A) (body : A → prog text unit) : prog text unit :=
  match xs with
  | [] => mret tt
  | x :: rest => _ ← body x; for_each rest body
  end.

(** The whole script.  [task_20_13] is [None] when the search found nothing
    and the subtask found otherwise; line 27 tests its truth value, so the
    [None] case of line 126, an item assignment on [None], is never
    reached.  The second [print] of the success path starts with a newline
    character. *)
Definition script : prog text unit :=
  data ← load_json tasks_file;
  found ← lift (find_task_20_13 data);
  let task_20_13 :=
    match found with
    | None => JNull
    | Some h => record h
    end in
  if negb (py_truthy task_20_13) then
    _ ← print "Error: Task 20.13 not found";
    py_exit 1
  else
    data ← lift (match found with
                 | Some h => add_subtasks data h
                 | None => py_setitem task_20_13 "subtasks" (JList new_subtasks)
                 end);
    _ ← dump_json tasks_file 2 data;
    _ ← print "✅ Successfully added 9 subtasks to Task 20.13";
    _ ← print (String "010"%char "Subtasks added:");
    for_each new_subtasks (fun subtask =>
      line ← lift (summary_line subtask);
      print line).

(** The status the process ends with: 0 at the end of the script, the
    argument of [exit], 1 after an uncaught exception; the interpreter is
    taken to shut down without a fault of its own. *)
Definition exit_status (r : res unit) : Z :=
  match r with
  | Ok _ => 0
  | Raise (SystemExit code) => code
  | Raise _ => 1
  end.

End Run.

End Script.
Export Script.
(** ** Observations on documents and runs

    The remaining definitions name what the properties talk about: the
    tests of the two loops, the shape of a document in which the search
    succeeds, the document the edit produces, what a run prints, and a few
    concrete documents. *)

(** The tests of lines 19 and 21 on one element: [v['id']] evaluates and
    equals [n], respectively evaluates and differs from [n].  Both are
    false for an element on which [v['id']] raises. *)
Definition id_is (n : Z) (v : json) : bool :=
  match py_getitem v "id" with
  | Ok id => py_eq_int id n
  | Raise _ => false
  end.

Definition id_isnt (n : Z) (v : json) : bool :=
  match py_getitem v "id" with
  | Ok id => negb (py_eq_int id n)
  | Raise _ => false
  end.

(** What line 20 iterates over. *)
Definition iter_subtasks (task : json) : res (list json) :=
  subtasks_v ← py_get task "subtasks" (JList []);
  py_iter subtasks_v.

(** The shape of a document in which the search stops at [h]: the entries
    of the document, its task list, the entries of the owning task, that
    task's subtask list and the entries of the subtask found. *)
Record located (data : json) (h : hit)
    (fields : list (string * json)) (tasks : list json)
    (tfields : list (string * json)) (subtasks : list json)
    (rfields : list (string * json)) : Prop := Located {
  loc_data : data = JObj fields;
  loc_tasks : dict_lookup "tasks" fields = Some (JList tasks);
  loc_task : tasks !! owner h = Some (JObj tfields);
  loc_first_20 : forallb (id_isnt 20) (take (owner h) tasks) = true;
  loc_id_20 : id_is 20 (JObj tfields) = true;
  loc_subtasks : dict_lookup "subtasks" tfields = Some (JList subtasks);
  loc_record : subtasks !! position h = Some (record h);
  loc_first_13 : forallb (id_isnt 13) (take (position h) subtasks) = true;
  loc_id_13 : id_is 13 (record h) = true;
  loc_rfields : record h = JObj rfields
}.

(** The document whose entries are [fields], after the subtask list of the
    task at index [i] has become [subtasks']. *)
Definition rebuilt (fields : list (string * json)) (tasks : list json) (i : nat)
    (tfields : list (string * json)) (subtasks' : list json) : json :=
  JObj (dict_store "tasks"
          (JList (<[i := JObj (dict_store "subtasks" (JList subtasks') tfields)]> tasks))
          fields).

(** The subtask found, with its ['subtasks'] entry replaced. *)
Definition with_new_subtasks (rfields : list (string * json)) : json :=
  JObj (dict_store "subtasks" (JList new_subtasks) rfields).

(** The document lines 125-129 leave behind when the search stopped at [h]. *)
Definition edited (h : hit) (fields : list (string * json)) (tasks : list json)
    (tfields : list (string * json)) (subtasks : list json)
    (rfields : list (string * json)) : json :=
  rebuilt fields tasks (owner h) tfields
    (<[12 := with_new_subtasks rfields]>
       (<[position h := with_new_subtasks rfields]> subtasks)).

(** The nine lines the script prints for the records, and all it prints
    on success and on the error path. *)
Definition summary_lines : list string :=
  [ "  20.13.1 - View Switching Infrastructure";
    "  20.13.2 - View-Specific Filtering UI (depends on: 1)";
    "  20.13.3 - Drag & Drop Infrastructure";
    "  20.13.4 - Gallery View Implementation (depends on: 1)";
    "  20.13.5 - Kanban View Implementation (depends on: 1, 3)";
    "  20.13.6 - Calendar View Implementation (depends on: 1, 2)";
    "  20.13.7 - Timeline View Implementation (depends on: 1, 2)";
    "  20.13.8 - View Performance Optimization (depends on: 4, 5, 6, 7)";
    "  20.13.9 - View Testing & Integration (depends on: 8)" ].

Definition success_output : list string :=
  [ "✅ Successfully added 9 subtasks to Task 20.13";
    String "010"%char "Subtasks added:" ] ++ summary_lines.

Definition error_output : list string := [ "Error: Task 20.13 not found" ].

Section Worlds.
Context {text : Type} `{!JsonCodec text}.
Implicit Types (w : world text).

(** The world after the file has been opened for reading. *)
Definition opened w : world text :=
  World (files w) (stdout w) (io_log w ++ [IoRead tasks_file]).

(** The document the task file of a world decodes to. *)
Definition loaded w : option json :=
  content ← files w !! tasks_file; json_load content.

(** The world a successful run leaves when it wrote [data']. *)
Definition written w (data' : json) : world text :=
  World (<[tasks_file := json_dump 2 data']> (files w))
        (stdout w ++ success_output)
        (io_log w ++ [IoRead tasks_file; IoWrite tasks_file (json_dump 2 data')]).

End Worlds.

(** ** The lines the specification describes *)

(** The id, title and dependencies of the nine records. *)
Definition literal_fields : list (Z * string * list Z) :=
  [ (1, "View Switching Infrastructure", []);
    (2, "View-Specific Filtering UI", [1]);
    (3, "Drag & Drop Infrastructure", []);
    (4, "Gallery View Implementation", [1]);
    (5, "Kanban View Implementation", [1; 3]);
    (6, "Calendar View Implementation", [1; 2]);
    (7, "Timeline View Implementation", [1; 2]);
    (8, "View Performance Optimization", [4; 5; 6; 7]);
    (9, "View Testing & Integration", [8]) ]%Z.

(** The form the specification gives for a printed line:
    [20.13.<id> - <title> (depends on: <deps>)], the parenthesis only when
    there are dependencies.  It is written with the library's
    [String.concat] and decimal notation, not with the operations of the
    script. *)
Definition spec_line (id : Z) (title : string) (deps : list Z) : string :=
  "20.13." ++ pretty id ++ " - " ++ title ++
  match deps with
  | [] => ""
  | _ => " (depends on: " ++ String.concat ", " (map pretty deps) ++ ")"
  end.

(** ** A store of rendered documents

    The simplest codec: a text is a document together with the indent it was
    written with, and loading gives the document back. *)
Record rendered := Rendered {
  rendered_indent : nat;
  rendered_doc : json
}.

#[global] Instance rendered_codec : JsonCodec rendered := {|
  json_load := fun t => Some (rendered_doc t);
  json_dump := Rendered
|}.

(** ** Sample documents *)

(** A world whose task file holds [data] and nothing has been printed. *)
Definition world_of (data : json) : world rendered :=
  World {[ tasks_file := Rendered 0 data ]} [] [].

Definition stub (n : Z) : json := JObj [("id", JInt n); ("title", JStr "t")].

(** Thirteen subtasks with ids 1 to 13, so id 13 is at index 12. *)
Definition thirteen : list json :=
  map stub [1; 2; 3; 4; 5; 6; 7; 8; 9; 10; 11; 12; 13]%Z.

(** One task 20 with the thirteen subtasks, after a task 19. *)
Definition well_formed_doc : json :=
  JObj [("tasks", JList [JObj [("id", JInt 19)];
                         JObj [("id", JInt 20); ("subtasks", JList thirteen)]])].

(** No task 20. *)
Definition no_task_20_doc : json :=
  JObj [("tasks", JList [JObj [("id", JInt 19)]; JObj [("id", JInt 21)]])].

(** Two tasks with id 20: the first has an empty subtask list, the second
    has the thirteen subtasks. *)
Definition two_tasks_20_doc : json :=
  JObj [("tasks", JList [JObj [("id", JInt 20); ("subtasks", JList [])];
                         JObj [("id", JInt 20); ("subtasks", JList thirteen)]])].

(** Two tasks with id 20: the first has no ['subtasks'] entry, the second
    has one subtask, with id 13. *)
Definition late_match_doc : json :=
  JObj [("tasks", JList [JObj [("id", JInt 20)];
                         JObj [("id", JInt 20); ("subtasks", JList [stub 13])]])].

(** Two tasks with id 20: the first has subtasks 1 and 2 only, the second
    has the thirteen subtasks. *)
Definition shadowed_doc : json :=
  JObj [("tasks", JList [JObj [("id", JInt 20); ("subtasks", JList [stub 1; stub 2])];
                         JObj [("id", JInt 20); ("subtasks", JList thirteen)]])].

(** Task 20 has fourteen subtasks and id 13 sits at index 2. *)
Definition misplaced_doc : json :=
  JObj [("tasks",
         JList [JObj [("id", JInt 20);
                      ("subtasks",
                       JList (map stub [1; 2; 13; 3; 4; 5; 6; 7; 8; 9; 10; 11; 12; 14]%Z))]])].

(** Task 20 has a single subtask, with id 13. *)
Definition short_list_doc : json :=
  JObj [("tasks", JList [JObj [("id", JInt 20); ("subtasks", JList [stub 13])]])].

(** The first task has no ['id'] entry. *)
Definition task_without_id_doc : json :=
  JObj [("tasks", JList [JObj [("title", JStr "t")];
                         JObj [("id", JInt 20); ("subtasks", JList thirteen)]])].

(** The first subtask of task 20 is a string, not a record. *)
Definition subtask_not_record_doc : json :=
  JObj [("tasks", JList [JObj [("id", JInt 20);
                               ("subtasks", JList (JStr "todo" :: thirteen))]])].

(** The ['subtasks'] entry of task 20 is [null]. *)
Definition null_subtasks_doc : json :=
  JObj [("tasks", JList [JObj [("id", JInt 20); ("subtasks", JNull)]])].

(** The well-formed document followed by a task that is not a record. *)
Definition trailing_junk_doc : json :=
  JObj [("tasks", JList [JObj [("id", JInt 19)];
                         JObj [("id", JInt 20); ("subtasks", JList thirteen)];
                         JStr "junk"])].

(** Task 20 has fourteen subtasks, id 13 sits at index 2 and already has a
    ['subtasks'] entry, before its title. *)
Definition reordered_doc : json :=
  JObj [("tasks",
         JList [JObj [("id", JInt 20);
                      ("subtasks",
                       JList (stub 1 :: stub 2 ::
                              JObj [("subtasks", JList [stub 7]); ("id", JInt 13);
                                    ("title", JStr "t")] ::
                              map stub [3; 4; 5; 6; 7; 8; 9; 10; 11; 12; 14]%Z))]])].

(** A world with a second file beside the task file, in which something
    has been printed already. *)
Definition two_files_world : world rendered :=
  World {[ tasks_file := Rendered 0 well_formed_doc;
           "notes.json" := Rendered 0 JNull ]} ["earlier"] [].

(** ** Facts about dicts *)

Section Dicts.
Implicit Types (fields : list (string * json)) (key : string) (v : json).

Lemma dict_lookup_store_eq key v fields :
  dict_lookup key (dict_store key v fields) = Some v.
Proof.
  induction fields as [|[k w] rest IH]; simpl.
  - by rewrite String.eqb_refl.
  - destruct (String.eqb k key) eqn:E; simpl; rewrite E; auto.
Qed.

Lemma dict_lookup_store_ne key key' v fields :
  key ≠ key' → dict_lookup key' (dict_store key v fields) = dict_lookup key' fields.
Proof.
  intros Hne. induction fields as [|[k w] rest IH]; simpl.
  - destruct (String.eqb key key') eqn:E; [|done].
    by apply String.eqb_eq in E.
  - destruct (String.eqb k key) eqn:E; simpl.
    + apply String.eqb_eq in E as ->.
      destruct (String.eqb key key') eqn:E'; [|done].
      by apply String.eqb_eq in E'.
    + by rewrite IH.
Qed.



(** An assignment to a key that is present keeps the keys and their order. *)
Lemma dict_store_keys key v fields :
  is_Some (dict_lookup key fields) →
  map fst (dict_store key v fields) = map fst fields.
Proof.
  induction fields as [|[k w] rest IH]; simpl; [by intros [? [=]]|].
  destruct (String.eqb k key); simpl; [done|].
  intros H. by rewrite IH.
Qed.

End Dicts.

Lemma dict_store_twice key v v' fields :
  dict_store key v' (dict_store key v fields) = dict_store key v' fields.
Proof.
  induction fields as [|[k w] rest IH]; simpl.
  - by rewrite String.eqb_refl.
  - destruct (String.eqb k key) eqn:E; simpl; rewrite E; [done|by rewrite IH].
Qed.

(** ** Facts about the search *)

Lemma id_is_dict n v : id_is n v = true → ∃ fields, v = JObj fields.
Proof. destruct v; try done. eauto. Qed.

(** A record that passed one of the tests is a non-empty dict, so it is
    true where line 27 tests it. *)
Lemma id_is_truthy n v : id_is n v = true → py_truthy v = true.
Proof. destruct v as [| | | | | |[|]]; done. Qed.

Section Search.
Implicit Types (subtasks tasks : list json) (h : hit).

Lemma scan_subtasks_skip i j pre rest :
  forallb (id_isnt 13) pre = true →
  scan_subtasks i j (pre ++ rest) = scan_subtasks i (j + length pre) rest.
Proof.
  revert j. induction pre as [|s pre IH]; intros j; simpl.
  - by rewrite Nat.add_0_r.
  - intros [Hs Hpre]%andb_prop. unfold id_isnt in Hs.
    destruct (py_getitem s "id") as [id|]; [simpl|done].
    apply negb_true_iff in Hs as ->.
    rewrite IH by done. f_equal. lia.
Qed.

Lemma scan_subtasks_stop i j s rest :
  id_is 13 s = true → scan_subtasks i j (s :: rest) = Ok (Some (Hit i j s)).
Proof.
  unfold id_is. simpl. destruct (py_getitem s "id") as [id|]; [simpl|done].
  by intros ->.
Qed.

Lemma scan_subtasks_none i j subtasks :
  forallb (id_isnt 13) subtasks = true → scan_subtasks i j subtasks = Ok None.
Proof.
  intros H. rewrite <- (app_nil_r subtasks). by rewrite scan_subtasks_skip.
Qed.

Lemma scan_subtasks_first i j subtasks k s :
  subtasks !! k = Some s →
  forallb (id_isnt 13) (take k subtasks) = true →
  id_is 13 s = true →
  scan_subtasks i j subtasks = Ok (Some (Hit i (j + k) s)).
Proof.
  intros Hk Hpre Hs.
  rewrite <- (take_drop_middle subtasks k s Hk).
  rewrite scan_subtasks_skip by done.
  rewrite scan_subtasks_stop by done.
  rewrite length_take_le; [done|]. apply lookup_lt_Some in Hk. lia.
Qed.

Lemma scan_subtasks_inv i j subtasks r :
  scan_subtasks i j subtasks = Ok r →
  match r with
  | None => forallb (id_isnt 13) subtasks = true
  | Some h =>
      ∃ k, h = Hit i (j + k) (record h) ∧ subtasks !! k = Some (record h) ∧
           forallb (id_isnt 13) (take k subtasks) = true ∧
           id_is 13 (record h) = true
  end.
Proof.
  revert j. induction subtasks as [|s rest IH]; intros j; simpl.
  - by intros [= <-].
  - destruct (py_getitem s "id") as [id|] eqn:Hid; [simpl|done].
    destruct (py_eq_int id 13) eqn:Heq.
    + intros [= <-]. exists 0. simpl. rewrite Nat.add_0_r.
      unfold id_is. by rewrite Hid.
    + intros H. apply IH in H. destruct r as [h|].
      * destruct H as (k & Hh & Hk & Hpre & Hs). exists (S k). simpl.
        rewrite Hh at 1. simpl. replace (j + S k) with (S j + k) by lia.
        repeat split; try done.
        unfold id_isnt at 1. by rewrite Hid, Heq.
      * unfold id_isnt at 1. by rewrite Hid, Heq.
Qed.

End Search.

Section SearchTasks.
Implicit Types (subtasks tasks : list json) (h : hit).

Lemma scan_tasks_skip i pre rest :
  forallb (id_isnt 20) pre = true →
  scan_tasks i (pre ++ rest) = scan_tasks (i + length pre) rest.
Proof.
  revert i. induction pre as [|t pre IH]; intros i; simpl.
  - by rewrite Nat.add_0_r.
  - intros [Ht Hpre]%andb_prop. unfold id_isnt in Ht.
    destruct (py_getitem t "id") as [id|]; [simpl|done].
    apply negb_true_iff in Ht as ->.
    rewrite IH by done. f_equal. lia.
Qed.

Lemma scan_tasks_stop i task rest :
  id_is 20 task = true →
  scan_tasks i (task :: rest) =
    (subtasks ← iter_subtasks task; scan_subtasks i 0 subtasks).
Proof.
  unfold id_is, iter_subtasks. simpl.
  destruct (py_getitem task "id") as [id|]; [simpl|done].
  intros ->. by destruct (py_get task "subtasks" (JList [])).
Qed.

Lemma scan_tasks_none i tasks :
  forallb (id_isnt 20) tasks = true → scan_tasks i tasks = Ok None.
Proof.
  intros H. rewrite <- (app_nil_r tasks). by rewrite scan_tasks_skip.
Qed.

Lemma scan_tasks_first i tasks k task :
  tasks !! k = Some task →
  forallb (id_isnt 20) (take k tasks) = true →
  id_is 20 task = true →
  scan_tasks i tasks =
    (subtasks ← iter_subtasks task; scan_subtasks (i + k) 0 subtasks).
Proof.
  intros Hk Hpre Ht.
  rewrite <- (take_drop_middle tasks k task Hk).
  rewrite scan_tasks_skip by done.
  rewrite scan_tasks_stop by done.
  rewrite length_take_le; [done|]. apply lookup_lt_Some in Hk. lia.
Qed.

Lemma scan_tasks_inv i tasks r :
  scan_tasks i tasks = Ok r →
  (forallb (id_isnt 20) tasks = true ∧ r = None) ∨
  (∃ k task subtasks,
      tasks !! k = Some task ∧
      forallb (id_isnt 20) (take k tasks) = true ∧
      id_is 20 task = true ∧
      iter_subtasks task = Ok subtasks ∧
      scan_subtasks (i + k) 0 subtasks = Ok r).
Proof.
  revert i. induction tasks as [|t rest IH]; intros i; simpl.
  - intros [= <-]. by left.
  - destruct (py_getitem t "id") as [id|] eqn:Hid; [simpl|done].
    destruct (py_eq_int id 20) eqn:Heq.
    + intros H. right. exists 0, t.
      unfold iter_subtasks.
      destruct (py_get t "subtasks" (JList [])) as [sv|]; [simpl in *|done].
      destruct (py_iter sv) as [subtasks|]; [simpl in *|done].
      exists subtasks. rewrite Nat.add_0_r. unfold id_is. by rewrite Hid.
    + intros H. apply IH in H as [[Hall ->]|(k & task & subtasks & H)].
      * left. unfold id_isnt at 1. by rewrite Hid, Heq.
      * right. exists (S k), task, subtasks. simpl.
        replace (i + S k) with (S i + k) by lia.
        unfold id_isnt at 1. by rewrite Hid, Heq.
Qed.

(** Only a list yields a dict when iterated: the keys of a dict and the
    characters of a string are strings. *)
Lemma py_iter_dict_elem v items k fields :
  py_iter v = Ok items → items !! k = Some (JObj fields) → v = JList items.
Proof.
  destruct v as [| | | |s|l|fs]; simpl; try done.
  - intros [= <-] Hk. exfalso. revert k Hk.
    induction s as [|c s IH]; intros [|k]; simpl; try done. apply IH.
  - by intros [= <-].
  - intros [= <-]. rewrite list_lookup_fmap.
    by destruct (fs !! k).
Qed.

End SearchTasks.

Lemma located_find data h fields tasks tfields subtasks rfields :
  located data h fields tasks tfields subtasks rfields →
  find_task_20_13 data = Ok (Some h).
Proof.
  intros [Ldata Ltasks Ltask Lpre20 Lid20 Lsubs Lrec Lpre13 Lid13 Lrf]. subst data. unfold find_task_20_13. simpl.
  rewrite Ltasks. simpl.
  erewrite scan_tasks_first by done.
  unfold iter_subtasks. simpl. rewrite Lsubs. simpl.
  erewrite scan_subtasks_first by done.
  by destruct h.
Qed.

Lemma find_located data h :
  find_task_20_13 data = Ok (Some h) →
  ∃ fields tasks tfields subtasks rfields,
    located data h fields tasks tfields subtasks rfields.
Proof.
  unfold find_task_20_13. intros H.
  destruct data as [| | | | | |fields]; try done. simpl in H.
  destruct (dict_lookup "tasks" fields) as [tasks_v|] eqn:Htasks; [simpl in H|done].
  destruct (py_iter tasks_v) as [tasks|] eqn:Hiter; [simpl in H|done].
  apply scan_tasks_inv in H as [[_ [=]]|(i & task & subtasks & Hi & Hpre & Hid & Hsub & H)].
  apply scan_subtasks_inv in H as (j & Hh & Hj & Hspre & Hsid). simpl in *.
  destruct (id_is_dict _ _ Hid) as [tfields ->].
  destruct (id_is_dict _ _ Hsid) as [rfields Hr].
  rewrite (py_iter_dict_elem _ _ _ _ Hiter Hi) in Htasks.
  unfold iter_subtasks in Hsub. simpl in Hsub.
  assert (dict_lookup "subtasks" tfields = Some (JList subtasks)) as Hsubs.
  { destruct (dict_lookup "subtasks" tfields) as [sv|]; simpl in Hsub.
    - rewrite Hr in Hj. by rewrite (py_iter_dict_elem _ _ _ _ Hsub Hj).
    - injection Hsub as <-. by rewrite lookup_nil in Hj. }
  exists fields, tasks, tfields, subtasks, rfields.
  rewrite Hh. by split.
Qed.

(** The same shape, from what the loops test on the way. *)
Lemma located_intro data tasks i task subtasks j s :
  py_getitem data "tasks" = Ok (JList tasks) →
  tasks !! i = Some task →
  forallb (id_isnt 20) (take i tasks) = true →
  id_is 20 task = true →
  py_getitem task "subtasks" = Ok (JList subtasks) →
  subtasks !! j = Some s →
  forallb (id_isnt 13) (take j subtasks) = true →
  id_is 13 s = true →
  ∃ fields tfields rfields,
    task = JObj tfields ∧
    located data (Hit i j s) fields tasks tfields subtasks rfields.
Proof.
  intros Htasks Hi Hpre Hid Hsub Hj Hspre Hsid.
  destruct data as [| | | | | |fields]; try done.
  destruct (id_is_dict _ _ Hid) as [tfields ->].
  destruct (id_is_dict _ _ Hsid) as [rfields ->].
  exists fields, tfields, rfields. split; [done|].
  simpl in Htasks, Hsub.
  destruct (dict_lookup "tasks" fields) eqn:?; [|done].
  destruct (dict_lookup "subtasks" tfields) eqn:?; [|done].
  split; simpl; congruence.
Qed.

(** When the search ends without a match, either every task carries an id
    other than 20, or the first task with id 20 has only subtasks with ids
    other than 13. *)
Lemma find_none_inv data :
  find_task_20_13 data = Ok None →
  ∃ tasks_v tasks,
    py_getitem data "tasks" = Ok tasks_v ∧
    py_iter tasks_v = Ok tasks ∧
    (forallb (id_isnt 20) tasks = true ∨
     ∃ i task subtasks,
       tasks !! i = Some task ∧
       forallb (id_isnt 20) (take i tasks) = true ∧
       id_is 20 task = true ∧
       iter_subtasks task = Ok subtasks ∧
       forallb (id_isnt 13) subtasks = true).
Proof.
  unfold find_task_20_13. intros H.
  destruct (py_getitem data "tasks") as [tasks_v|]; [simpl in H|done].
  destruct (py_iter tasks_v) as [tasks|] eqn:Hiter; [simpl in H|done].
  exists tasks_v, tasks. split_and!; try done.
  apply scan_tasks_inv in H as [[Hall _]|(i & task & subtasks & Hi & Hpre & Hid & Hsub & H)].
  - by left.
  - right. exists i, task, subtasks. split_and!; try done.
    by apply scan_subtasks_inv in H.
Qed.

(** The comparison of line 19 is Python's: the float 20.0 (here 5 * 2^2)
    and the integer 20 are equal, the string "20" and [True] are not. *)
Example id_20_float : id_is 20 (JObj [("id", JFloat (S754_finite false 5 2))]) = true.
Proof. reflexivity. Qed.

Example id_20_string : id_is 20 (JObj [("id", JStr "20")]) = false.
Proof. reflexivity. Qed.

Example id_20_half : id_is 20 (JObj [("id", JFloat (S754_finite false 41 (-1)))]) = false.
Proof. reflexivity. Qed.

(** A task without an ['id'] entry before task 20 ends the search, and the
    run, with [KeyError]; a subtask list of twelve ends the run with
    [IndexError] at line 129, before anything is written. *)
Example search_key_error :
  find_task_20_13
    (JObj [("tasks", JList [JObj [("title", JStr "t")];
                            JObj [("id", JInt 20); ("subtasks", JList thirteen)]])])
  = Raise KeyError.
Proof. reflexivity. Qed.

Example short_list_index_error :
  let data := JObj [("tasks", JList [JObj [("id", JInt 20);
                                           ("subtasks", JList [stub 13])]])] in
  script (world_of data) =
    (Raise IndexError, World {[ tasks_file := Rendered 0 data ]} [] [IoRead tasks_file]).
Proof. vm_compute. reflexivity. Qed.

(** The exceptions the operations of the search can raise. *)
Lemma py_getitem_raises obj key e :
  py_getitem obj key = Raise e → e = KeyError ∨ e = TypeError.
Proof.
  destruct obj as [| | | | | |fields]; simpl; try (intros [= <-]; by right).
  destruct (dict_lookup key fields); [done|]. intros [= <-]. by left.
Qed.

Lemma py_iter_raises v e : py_iter v = Raise e → e = TypeError.
Proof. destruct v; simpl; try done; by intros [= <-]. Qed.

Lemma scan_subtasks_raises i j subtasks e :
  scan_subtasks i j subtasks = Raise e → e = KeyError ∨ e = TypeError.
Proof.
  revert j. induction subtasks as [|s rest IH]; intros j; simpl; [done|].
  destruct (py_getitem s "id") as [id|e'] eqn:Hid; simpl.
  - destruct (py_eq_int id 13); [done|]. apply IH.
  - intros [= <-]. by eapply py_getitem_raises.
Qed.

Lemma scan_tasks_raises i tasks e :
  scan_tasks i tasks = Raise e → e = KeyError ∨ e = TypeError.
Proof.
  revert i. induction tasks as [|t rest IH]; intros i; simpl; [done|].
  destruct (py_getitem t "id") as [id|e'] eqn:Hid; simpl.
  - destruct (py_eq_int id 20); [|apply IH].
    destruct t as [| | | | | |tfields]; try done. simpl.
    destruct (dict_lookup "subtasks" tfields) as [v|]; simpl.
    + destruct (py_iter v) as [subtasks|e'] eqn:Hiter; simpl.
      * apply scan_subtasks_raises.
      * intros [= <-]. right. by eapply py_iter_raises.
    + done.
  - intros [= <-]. by eapply py_getitem_raises.
Qed.

Lemma find_raises data e :
  find_task_20_13 data = Raise e → e = KeyError ∨ e = TypeError.
Proof.
  unfold find_task_20_13.
  destruct (py_getitem data "tasks") as [tasks_v|e'] eqn:Htasks; simpl.
  - destruct (py_iter tasks_v) as [tasks|e'] eqn:Hiter; simpl.
    + apply scan_tasks_raises.
    + intros [= <-]. right. by eapply py_iter_raises.
  - intros [= <-]. by eapply py_getitem_raises.
Qed.

(** Where the search raises: at a task the outer loop reaches, or at a
    subtask the inner loop reaches, on which reading ['id'] raises. *)
Lemma find_task_fault data tasks i task e :
  py_getitem data "tasks" = Ok (JList tasks) →
  tasks !! i = Some task →
  forallb (id_isnt 20) (take i tasks) = true →
  py_getitem task "id" = Raise e →
  find_task_20_13 data = Raise e.
Proof.
  intros Htasks Hi Hpre He. unfold find_task_20_13. rewrite Htasks. simpl.
  rewrite <- (take_drop_middle tasks i task Hi).
  rewrite scan_tasks_skip by done. simpl. by rewrite He.
Qed.

Lemma find_subtask_fault data tasks i task subtasks j s e :
  py_getitem data "tasks" = Ok (JList tasks) →
  tasks !! i = Some task →
  forallb (id_isnt 20) (take i tasks) = true →
  id_is 20 task = true →
  iter_subtasks task = Ok subtasks →
  subtasks !! j = Some s →
  forallb (id_isnt 13) (take j subtasks) = true →
  py_getitem s "id" = Raise e →
  find_task_20_13 data = Raise e.
Proof.
  intros Htasks Hi Hpre Hid Hsub Hj Hspre He.
  unfold find_task_20_13. rewrite Htasks. simpl.
  erewrite scan_tasks_first by done. rewrite Hsub. simpl.
  rewrite <- (take_drop_middle subtasks j s Hj).
  rewrite scan_subtasks_skip by done. simpl. by rewrite He.
Qed.

(** ** Facts about the edit *)

Section Edit.
Variables (fields : list (string * json)) (tasks : list json) (i : nat)
          (tfields : list (string * json)) (subtasks : list json).
Hypothesis Htasks : dict_lookup "tasks" fields = Some (JList tasks).
Hypothesis Htask : tasks !! i = Some (JObj tfields).
Hypothesis Hsubtasks : dict_lookup "subtasks" tfields = Some (JList subtasks).

Lemma subtasks_of_eq : subtasks_of (JObj fields) i = Ok (JList subtasks).
Proof.
  unfold subtasks_of. simpl. rewrite Htasks. simpl. rewrite Htask. simpl.
  by rewrite Hsubtasks.
Qed.

Lemma store_subtask_eq k v :
  store_subtask (JObj fields) i k v =
    if decide (k < length subtasks)
    then Ok (rebuilt fields tasks i tfields (<[k := v]> subtasks))
    else Raise IndexError.
Proof.
  unfold store_subtask. rewrite subtasks_of_eq. simpl.
  destruct (decide (k < length subtasks)); [simpl|done].
  unfold with_subtasks. simpl. rewrite Htasks. simpl. rewrite Htask. simpl.
  apply lookup_lt_Some in Htask.
  by destruct (decide (i < length tasks)).
Qed.

(** Reading back from a rebuilt document. *)
Lemma rebuilt_tasks subtasks' :
  py_getitem (rebuilt fields tasks i tfields subtasks') "tasks" =
    Ok (JList (<[i := JObj (dict_store "subtasks" (JList subtasks') tfields)]> tasks)).
Proof. unfold rebuilt. simpl. by rewrite dict_lookup_store_eq. Qed.

Lemma rebuilt_subtasks subtasks' :
  subtasks_of (rebuilt fields tasks i tfields subtasks') i = Ok (JList subtasks').
Proof.
  unfold subtasks_of. rewrite rebuilt_tasks. simpl.
  rewrite list_lookup_insert_eq by (by eapply lookup_lt_Some). simpl.
  by rewrite dict_lookup_store_eq.
Qed.

Lemma store_subtask_rebuilt subtasks' k v :
  store_subtask (rebuilt fields tasks i tfields subtasks') i k v =
    if decide (k < length subtasks')
    then Ok (rebuilt fields tasks i tfields (<[k := v]> subtasks'))
    else Raise IndexError.
Proof.
  unfold store_subtask. rewrite rebuilt_subtasks. simpl.
  destruct (decide (k < length subtasks')); [simpl|done].
  unfold with_subtasks. rewrite rebuilt_tasks. simpl.
  apply lookup_lt_Some in Htask as Hlt.
  rewrite list_lookup_insert_eq by done. simpl.
  rewrite length_insert. destruct (decide (i < length tasks)); [simpl|done].
  unfold rebuilt. by rewrite list_insert_insert_eq, !dict_store_twice.
Qed.


End Edit.

(** Lines 125-129 on a document in which the search stopped at [h]: the
    store at index 12 raises when the owning list has at most 12 elements. *)
Lemma add_subtasks_located data h fields tasks tfields subtasks rfields :
  located data h fields tasks tfields subtasks rfields →
  add_subtasks data h =
    if decide (12 < length subtasks)
    then Ok (rebuilt fields tasks (owner h) tfields
               (<[12 := with_new_subtasks rfields]>
                  (<[position h := with_new_subtasks rfields]> subtasks)))
    else Raise IndexError.
Proof.
  intros [Ldata Ltasks Ltask Lpre20 Lid20 Lsubs Lrec Lpre13 Lid13 Lrf]. subst data. unfold add_subtasks. rewrite Lrf. simpl.
  erewrite store_subtask_eq by done.
  apply lookup_lt_Some in Lrec.
  destruct (decide (position h < length subtasks)); [simpl|done].
  erewrite store_subtask_rebuilt by done.
  by rewrite length_insert.
Qed.

(** ** Running on an edited document *)

Lemma forallb_take {A} (f : A → bool) (l : list A) n :
  forallb f l = true → forallb f (take n l) = true.
Proof.
  revert n. induction l as [|a l IH]; intros [|n]; simpl; try done.
  intros [-> ?]%andb_prop. simpl. by apply IH.
Qed.

Lemma forallb_take_le {A} (f : A → bool) (l : list A) n m :
  (n ≤ m)%nat → forallb f (take m l) = true → forallb f (take n l) = true.
Proof.
  intros Hle H. replace (take n l) with (take n (take m l)).
  - by apply forallb_take.
  - rewrite take_take. f_equal. lia.
Qed.

Section Again.
Variables (data : json) (h : hit)
          (fields : list (string * json)) (tasks : list json)
          (tfields : list (string * json)) (subtasks : list json)
          (rfields : list (string * json)).
Hypothesis Hloc : located data h fields tasks tfields subtasks rfields.
Hypothesis Hlen : 12 < length subtasks.

Let r' : json := with_new_subtasks rfields.
Let subtasks' : list json := <[12 := r']> (<[position h := r']> subtasks).
Let tfields' : list (string * json) := dict_store "subtasks" (JList subtasks') tfields.
Let tasks' : list json := <[owner h := JObj tfields']> tasks.
Let fields' : list (string * json) := dict_store "tasks" (JList tasks') fields.

(** In the edited document the search stops at the same task, at the
    smaller of the old index and 12, on the record already edited. *)
Lemma located_edited :
  located (edited h fields tasks tfields subtasks rfields)
    (Hit (owner h) (position h `min` 12) r')
    fields' tasks' tfields' subtasks'
    (dict_store "subtasks" (JList new_subtasks) rfields).
Proof.
  destruct Hloc as [_ _ Htask Hpre20 Hid20 _ Hrec Hpre13 Hid13 Hrf].
  pose proof (lookup_lt_Some _ _ _ Htask) as Hown.
  pose proof (lookup_lt_Some _ _ _ Hrec) as Hpos.
  split; simpl.
  - done.
  - apply dict_lookup_store_eq.
  - by apply list_lookup_insert_eq.
  - unfold tasks'. by rewrite take_insert_ge.
  - unfold id_is, tfields' in *. simpl in *.
    by rewrite dict_lookup_store_ne.
  - apply dict_lookup_store_eq.
  - unfold subtasks'. destruct (Nat.min_spec (position h) 12) as [[? ->]|[? ->]].
    + rewrite list_lookup_insert_ne by lia. by apply list_lookup_insert_eq.
    + apply list_lookup_insert_eq. by rewrite length_insert.
  - unfold subtasks'. rewrite !take_insert_ge by lia.
    eapply forallb_take_le; [|done]. lia.
  - unfold id_is in *. rewrite Hrf in Hid13. simpl in *.
    by rewrite dict_lookup_store_ne.
  - done.
Qed.


End Again.

(** ** Facts about the run *)

Lemma summary_lines_eq : map_res summary_line new_subtasks = Ok summary_lines.
Proof. vm_compute. reflexivity. Qed.

Section RunFacts.
Context {text : Type} `{!JsonCodec text}.
Implicit Types (w : world text).

Lemma for_each_print (records : list json) (lines : list string) w :
  map_res summary_line records = Ok lines →
  for_each records (fun subtask => line ← lift (summary_line subtask); print line) w =
    (Ok tt, World (files w) (stdout w ++ lines) (io_log w)).
Proof.
  set (body := fun subtask : json => _).
  revert lines w. induction records as [|r rest IH]; intros lines w; simpl.
  - intros [= <-]. rewrite app_nil_r. by destruct w.
  - destruct (summary_line r) as [line|] eqn:Hline; [simpl|done].
    destruct (map_res summary_line rest) as [lines'|]; [simpl|done].
    intros [= <-]. unfold mbind at 1, prog_bind.
    assert (body r w = (Ok tt, World (files w) (stdout w ++ [line]) (io_log w))) as ->.
    { unfold body, mbind, prog_bind, lift, print. by rewrite Hline. }
    rewrite (IH lines') by done. simpl. by rewrite <- app_assoc.
Qed.

(** The script, statement by statement, as one case analysis. *)
Lemma script_eq w :
  script w =
    match files w !! tasks_file with
    | None => (Raise FileNotFoundError, w)
    | Some content =>
        match json_load content with
        | None => (Raise JSONDecodeError, opened w)
        | Some data =>
            match find_task_20_13 data with
            | Raise e => (Raise e, opened w)
            | Ok None =>
                (Raise (SystemExit 1),
                 World (files w) (stdout w ++ error_output)
                       (io_log w ++ [IoRead tasks_file]))
            | Ok (Some h) =>
                match add_subtasks data h with
                | Raise e => (Raise e, opened w)
                | Ok data' =>
                    (Ok tt,
                     World (<[tasks_file := json_dump 2 data']> (files w))
                           (stdout w ++ success_output)
                           (io_log w ++ [IoRead tasks_file;
                                         IoWrite tasks_file (json_dump 2 data')]))
                end
            end
        end
    end.
Proof.
  unfold script. set (report := for_each new_subtasks _).
  unfold mbind at 1, prog_bind. unfold load_json.
  destruct (files w !! tasks_file) as [content|]; [|done].
  destruct (json_load content) as [data|]; [|done].
  unfold mbind at 1, prog_bind, lift.
  destruct (find_task_20_13 data) as [[h|]|e] eqn:Hfind; [| |done].
  - destruct (find_located _ _ Hfind) as (fields & tasks & tfields & subtasks & rfields & Hloc).
    rewrite (id_is_truthy 13) by apply Hloc. simpl.
    unfold mbind at 1, prog_bind.
    destruct (add_subtasks data h) as [data'|e]; [|done].
    unfold mbind at 1, prog_bind, dump_json.
    unfold mbind at 1, prog_bind, print. simpl.
    unfold mbind at 1, prog_bind. simpl. unfold report.
    rewrite (for_each_print _ summary_lines) by apply summary_lines_eq. simpl.
    unfold success_output. simpl. by rewrite <- !app_assoc.
  - simpl. unfold mbind, prog_bind, print, py_exit, lift. by simpl.
Qed.

Lemma script_found w data h data' :
  loaded w = Some data →
  find_task_20_13 data = Ok (Some h) →
  add_subtasks data h = Ok data' →
  script w = (Ok tt, written w data').
Proof.
  unfold loaded. intros Hload Hfind Hadd. rewrite script_eq.
  destruct (files w !! tasks_file) as [content|]; [simpl in Hload|done].
  by rewrite Hload, Hfind, Hadd.
Qed.

Lemma script_not_found w data :
  loaded w = Some data →
  find_task_20_13 data = Ok None →
  script w = (Raise (SystemExit 1),
              World (files w) (stdout w ++ error_output)
                    (io_log w ++ [IoRead tasks_file])).
Proof.
  unfold loaded. intros Hload Hfind. rewrite script_eq.
  destruct (files w !! tasks_file) as [content|]; [simpl in Hload|done].
  by rewrite Hload, Hfind.
Qed.

(** A run ends normally only along the path that edits and writes. *)
Lemma script_success w w' :
  script w = (Ok tt, w') →
  ∃ data h fields tasks tfields subtasks rfields,
    loaded w = Some data ∧
    located data h fields tasks tfields subtasks rfields ∧
    12 < length subtasks ∧
    add_subtasks data h = Ok (edited h fields tasks tfields subtasks rfields) ∧
    w' = written w (edited h fields tasks tfields subtasks rfields).
Proof.
  rewrite script_eq. unfold loaded.
  destruct (files w !! tasks_file) as [content|]; [simpl|done].
  destruct (json_load content) as [data|]; [|done].
  destruct (find_task_20_13 data) as [[h|]|e] eqn:Hfind; [| |done]; [|done].
  destruct (find_located _ _ Hfind) as (fields & tasks & tfields & subtasks & rfields & Hloc).
  rewrite (add_subtasks_located _ _ _ _ _ _ _ Hloc).
  destruct (decide (12 < length subtasks)); [|done].
  intros [= <-]. exists data, h, fields, tasks, tfields, subtasks, rfields.
  split_and!; try done.
  rewrite (add_subtasks_located _ _ _ _ _ _ _ Hloc).
  by destruct (decide (12 < length subtasks)).
Qed.



End RunFacts.

Section RunFaults.
Context {text : Type} `{!JsonCodec text}.
Implicit Types (w : world text).

Lemma script_search_raises w data e :
  loaded w = Some data →
  find_task_20_13 data = Raise e →
  script w = (Raise e, opened w).
Proof.
  unfold loaded. intros Hload Hfind. rewrite script_eq.
  destruct (files w !! tasks_file) as [content|]; [simpl in Hload|done].
  by rewrite Hload, Hfind.
Qed.

Lemma script_edit_raises w data h e :
  loaded w = Some data →
  find_task_20_13 data = Ok (Some h) →
  add_subtasks data h = Raise e →
  script w = (Raise e, opened w).
Proof.
  unfold loaded. intros Hload Hfind Hadd. rewrite script_eq.
  destruct (files w !! tasks_file) as [content|]; [simpl in Hload|done].
  by rewrite Hload, Hfind, Hadd.
Qed.

End RunFaults.

(** ** The properties of the specification *)

Section Properties.
Context {text : Type} `{!JsonCodec text}.
Implicit Types (w : world text).

(** C1, amended.  When the first task with id 20 has a subtask list whose
    first element with id 13 sits at index 12 (the tasks and subtasks before
    them carrying other ids), the script runs to its end and the document it
    writes has, at index 12 of that task's subtask list, the same record
    with its ['subtasks'] entry equal to the nine literal records: ids 1 to
    9, the fifth being "Kanban View Implementation" with dependencies
    [[1, 3]]. *)
Theorem C1_replaces_subtasks_of_first_task_20 w data tasks i task subtasks s :
  loaded w = Some data →
  py_getitem data "tasks" = Ok (JList tasks) →
  tasks !! i = Some task →
  forallb (id_isnt 20) (take i tasks) = true →
  id_is 20 task = true →
  py_getitem task "subtasks" = Ok (JList subtasks) →
  subtasks !! 12 = Some s →
  forallb (id_isnt 13) (take 12 subtasks) = true →
  id_is 13 s = true →
  ∃ data' subtasks' s' r5,
    script w = (Ok tt, written w data') ∧
    files (written w data') !! tasks_file = Some (json_dump 2 data') ∧
    subtasks_of data' i = Ok (JList subtasks') ∧
    subtasks' !! 12 = Some s' ∧
    py_getitem s' "subtasks" = Ok (JList new_subtasks) ∧
    (∀ key, key ≠ "subtasks" → py_getitem s' key = py_getitem s key) ∧
    length new_subtasks = 9 ∧
    map (fun r => py_getitem r "id") new_subtasks =
      map (fun n => Ok (JInt n)) [1; 2; 3; 4; 5; 6; 7; 8; 9]%Z ∧
    new_subtasks !! 4 = Some r5 ∧
    py_getitem r5 "id" = Ok (JInt 5) ∧
    py_getitem r5 "title" = Ok (JStr "Kanban View Implementation") ∧
    py_getitem r5 "dependencies" = Ok (JList [JInt 1; JInt 3]).
Proof.
  intros Hload Htasks Hi Hpre Hid Hsub Hj Hspre Hsid.
  destruct (located_intro _ _ _ _ _ _ _ Htasks Hi Hpre Hid Hsub Hj Hspre Hsid)
    as (fields & tfields & rfields & -> & Hloc).
  pose proof (lookup_lt_Some _ _ _ Hj) as Hlen.
  pose proof (located_find _ _ _ _ _ _ _ Hloc) as Hfind.
  pose proof (add_subtasks_located _ _ _ _ _ _ _ Hloc) as Hadd.
  destruct (decide (12 < length subtasks)); [|done].
  destruct Hloc as [Ldata Ltasks Ltask Lpre20 Lid20 Lsubs Lrec Lpre13 Lid13 Lrf]; simpl in *.
  eexists (edited (Hit i 12 s) fields tasks tfields subtasks rfields), _,
    (with_new_subtasks rfields), _.
  split_and!.
  - by eapply script_found.
  - simpl. by rewrite lookup_insert_eq.
  - by eapply rebuilt_subtasks.
  - apply list_lookup_insert_eq. by rewrite length_insert.
  - simpl. by rewrite dict_lookup_store_eq.
  - intros key Hkey. subst s. simpl. by rewrite dict_lookup_store_ne.
  - done.
  - done.
  - done.
  - done.
  - done.
  - done.
Qed.

(** C2.  When the search ends without a match, the script prints the error
    line, ends with status 1 and leaves the file store as it was: the only
    file operation is the opening for reading, and nothing is written. *)
Theorem C2_not_found_exits_unmodified w data :
  loaded w = Some data →
  find_task_20_13 data = Ok None →
  ∃ r w',
    script w = (r, w') ∧
    exit_status r = 1%Z ∧ exit_status r ≠ 0%Z ∧
    stdout w' = (stdout w ++ ["Error: Task 20.13 not found"])%list ∧
    files w' = files w ∧
    io_log w' = (io_log w ++ [IoRead tasks_file])%list.
Proof.
  intros Hload Hfind. eexists _, _.
  split; [by eapply script_not_found|]. by simpl.
Qed.

(** C3.  On a successful run line 129 stores the record found, as line 126
    left it, at index 12 of the owning task's subtask list.  Afterwards
    index 12 and the index the search stopped at hold that same record.
    When the two indices coincide the store changes nothing; when they
    differ, the element line 126 left at index 12 (the one the input had
    there) is overwritten. *)
Theorem C3_store_at_index_12 w w' :
  script w = (Ok tt, w') →
  ∃ data data' h subtasks r',
    loaded w = Some data ∧
    find_task_20_13 data = Ok (Some h) ∧
    files w' !! tasks_file = Some (json_dump 2 data') ∧
    subtasks_of data (owner h) = Ok (JList subtasks) ∧
    subtasks !! position h = Some (record h) ∧
    py_setitem (record h) "subtasks" (JList new_subtasks) = Ok r' ∧
    12 < length subtasks ∧
    subtasks_of data' (owner h) =
      Ok (JList (<[12 := r']> (<[position h := r']> subtasks))) ∧
    <[12 := r']> (<[position h := r']> subtasks) !! 12 = Some r' ∧
    <[12 := r']> (<[position h := r']> subtasks) !! position h = Some r' ∧
    (position h = 12 →
       <[12 := r']> (<[position h := r']> subtasks) = <[position h := r']> subtasks) ∧
    (position h ≠ 12 →
       is_Some (subtasks !! 12) ∧
       <[position h := r']> subtasks !! 12 = subtasks !! 12).
Proof.
  intros (data & h & fields & tasks & tfields & subtasks & rfields &
          Hload & Hloc & Hlen & Hadd & ->)%script_success.
  pose proof (located_find _ _ _ _ _ _ _ Hloc) as Hfind.
  destruct Hloc as [Ldata Ltasks Ltask Lpre20 Lid20 Lsubs Lrec Lpre13 Lid13 Lrf]; subst data; simpl in *.
  pose proof (lookup_lt_Some _ _ _ Lrec) as Hpos.
  exists (JObj fields), (edited h fields tasks tfields subtasks rfields), h,
    subtasks, (with_new_subtasks rfields).
  split_and!; try done.
  - by rewrite lookup_insert_eq.
  - by eapply subtasks_of_eq.
  - by rewrite Lrf.
  - by eapply rebuilt_subtasks.
  - apply list_lookup_insert_eq. by rewrite length_insert.
  - destruct (decide (position h = 12)) as [->|Hne].
    + apply list_lookup_insert_eq. by rewrite length_insert.
    + rewrite list_lookup_insert_ne by done. by apply list_lookup_insert_eq.
  - intros ->. by rewrite list_insert_insert_eq.
  - intros Hne. split; [by apply lookup_lt_is_Some|].
    by apply list_lookup_insert_ne.
Qed.

(** C4, amended.  On a document whose ['tasks'] entry is a list, the search
    goes through the tasks in order, stops at the first whose id equals 20
    and goes through the subtasks of that one in order.
    - It returns the first subtask with id 13 of the first task with id 20,
      together with the index of that task and its own index, provided the
      tasks and subtasks before them carry other ids; the script then passes
      the test of line 27, so it does not end with [exit(1)], and when the
      subtask list has more than 12 elements it runs to its end.
    - It finds nothing exactly in two cases: every task carries an id other
      than 20; or the first task with id 20, the tasks before it carrying
      other ids, has subtasks that can be iterated and all carry ids other
      than 13.
    - It raises, [KeyError] or [TypeError], when it reaches a task, or a
      subtask of the first task with id 20, on which reading ['id'] raises,
      and raises nothing else. *)
Theorem C4_locator_first_task_20 data tasks :
  py_getitem data "tasks" = Ok (JList tasks) →
  (∀ i task subtasks j s,
      tasks !! i = Some task →
      forallb (id_isnt 20) (take i tasks) = true →
      id_is 20 task = true →
      py_getitem task "subtasks" = Ok (JList subtasks) →
      subtasks !! j = Some s →
      forallb (id_isnt 13) (take j subtasks) = true →
      id_is 13 s = true →
      find_task_20_13 data = Ok (Some (Hit i j s)) ∧
      (∀ w, loaded w = Some data → (script w).1 ≠ Raise (SystemExit 1)) ∧
      (12 < length subtasks →
       ∀ w, loaded w = Some data → ∃ data', script w = (Ok tt, written w data'))) ∧
  (find_task_20_13 data = Ok None ↔
   forallb (id_isnt 20) tasks = true ∨
   ∃ i task subtasks,
     tasks !! i = Some task ∧
     forallb (id_isnt 20) (take i tasks) = true ∧
     id_is 20 task = true ∧
     iter_subtasks task = Ok subtasks ∧
     forallb (id_isnt 13) subtasks = true) ∧
  (∀ i task e,
      tasks !! i = Some task →
      forallb (id_isnt 20) (take i tasks) = true →
      py_getitem task "id" = Raise e →
      find_task_20_13 data = Raise e) ∧
  (∀ i task subtasks j s e,
      tasks !! i = Some task →
      forallb (id_isnt 20) (take i tasks) = true →
      id_is 20 task = true →
      iter_subtasks task = Ok subtasks →
      subtasks !! j = Some s →
      forallb (id_isnt 13) (take j subtasks) = true →
      py_getitem s "id" = Raise e →
      find_task_20_13 data = Raise e) ∧
  (∀ e, find_task_20_13 data = Raise e → e = KeyError ∨ e = TypeError).
Proof.
  intros Htasks. split_and!.
  - intros i task subtasks j s Hi Hpre Hid Hsub Hj Hspre Hsid.
    destruct (located_intro _ _ _ _ _ _ _ Htasks Hi Hpre Hid Hsub Hj Hspre Hsid)
      as (fields & tfields & rfields & -> & Hloc).
    pose proof (located_find _ _ _ _ _ _ _ Hloc) as Hfind.
    pose proof (add_subtasks_located _ _ _ _ _ _ _ Hloc) as Hadd.
    split_and!; [done| |].
    + intros w Hload. revert Hadd.
      destruct (decide (12 < length subtasks)); intros Hadd.
      * by rewrite (script_found w _ _ _ Hload Hfind Hadd).
      * by rewrite (script_edit_raises w _ _ _ Hload Hfind Hadd).
    + intros Hlen w Hload. eexists. eapply script_found; [done..|].
      rewrite Hadd. by destruct (decide (12 < length subtasks)).
  - split.
    + intros (tasks_v & tasks0 & Hget & Hiter & Hcases)%find_none_inv.
      rewrite Htasks in Hget. injection Hget as <-.
      simpl in Hiter. by injection Hiter as <-.
    + intros [Hall|(i & task & subtasks & Hi & Hpre & Hid & Hsub & Hnone)];
        unfold find_task_20_13; rewrite Htasks; simpl.
      * by apply scan_tasks_none.
      * erewrite scan_tasks_first by done. rewrite Hsub. simpl.
        by apply scan_subtasks_none.
  - intros i task e. by apply find_task_fault.
  - intros i task subtasks j s e. by apply find_subtask_fault.
  - apply find_raises.
Qed.


(** C6.  On a successful run every entry of the document other than
    ['tasks'], every task other than the owning one, every entry of the
    owning task other than ['subtasks'], and every subtask of the owning task
    at an index other than the one found and 12, is in the written document
    what it was in the loaded one. *)
Theorem C6_frame w w' :
  script w = (Ok tt, w') →
  ∃ data data' h tasks tasks' task task' subtasks subtasks',
    loaded w = Some data ∧
    find_task_20_13 data = Ok (Some h) ∧
    files w' !! tasks_file = Some (json_dump 2 data') ∧
    (∀ key, key ≠ "tasks" → py_getitem data' key = py_getitem data key) ∧
    py_getitem data "tasks" = Ok (JList tasks) ∧
    py_getitem data' "tasks" = Ok (JList tasks') ∧
    (∀ k, k ≠ owner h → tasks' !! k = tasks !! k) ∧
    tasks !! owner h = Some task ∧
    tasks' !! owner h = Some task' ∧
    (∀ key, key ≠ "subtasks" → py_getitem task' key = py_getitem task key) ∧
    py_getitem task "subtasks" = Ok (JList subtasks) ∧
    py_getitem task' "subtasks" = Ok (JList subtasks') ∧
    (∀ k, k ≠ position h → k ≠ 12 → subtasks' !! k = subtasks !! k).
Proof.
  intros (data & h & fields & tasks & tfields & subtasks & rfields &
          Hload & Hloc & Hlen & Hadd & ->)%script_success.
  pose proof (located_find _ _ _ _ _ _ _ Hloc) as Hfind.
  destruct Hloc as [Ldata Ltasks Ltask Lpre20 Lid20 Lsubs Lrec Lpre13 Lid13 Lrf]; subst data; simpl in *.
  pose proof (lookup_lt_Some _ _ _ Ltask) as Hown.
  set (subtasks' := <[12 := with_new_subtasks rfields]>
                      (<[position h := with_new_subtasks rfields]> subtasks)).
  set (task' := JObj (dict_store "subtasks" (JList subtasks') tfields)).
  exists (JObj fields), (edited h fields tasks tfields subtasks rfields), h,
    tasks, (<[owner h := task']> tasks), (JObj tfields), task', subtasks, subtasks'.
  split_and!; try done.
  - by rewrite lookup_insert_eq.
  - intros key Hkey. simpl. by rewrite dict_lookup_store_ne.
  - simpl. by rewrite Ltasks.
  - by apply rebuilt_tasks.
  - intros k Hk. by apply list_lookup_insert_ne.
  - by apply list_lookup_insert_eq.
  - intros key Hkey. simpl. by rewrite dict_lookup_store_ne.
  - simpl. by rewrite Lsubs.
  - simpl. by rewrite dict_lookup_store_eq.
  - intros k Hk Hk12. unfold subtasks'. by rewrite !list_lookup_insert_ne.
Qed.

(** C7.  On a successful run the script prints the success line and the
    header, then exactly nine lines, one for each of the nine records in
    order: two spaces of indentation followed by [20.13.<id> - <title>],
    with [ (depends on: <deps>)] after it exactly when the record has
    dependencies. *)
Theorem C7_summary_lines w w' :
  script w = (Ok tt, w') →
  ∃ lines,
    stdout w' =
      (stdout w ++ ["✅ Successfully added 9 subtasks to Task 20.13";
                    String "010"%char "Subtasks added:"] ++ lines)%list ∧
    lines =
      [ "  20.13.1 - View Switching Infrastructure";
        "  20.13.2 - View-Specific Filtering UI (depends on: 1)";
        "  20.13.3 - Drag & Drop Infrastructure";
        "  20.13.4 - Gallery View Implementation (depends on: 1)";
        "  20.13.5 - Kanban View Implementation (depends on: 1, 3)";
        "  20.13.6 - Calendar View Implementation (depends on: 1, 2)";
        "  20.13.7 - Timeline View Implementation (depends on: 1, 2)";
        "  20.13.8 - View Performance Optimization (depends on: 4, 5, 6, 7)";
        "  20.13.9 - View Testing & Integration (depends on: 8)" ] ∧
    length lines = 9 ∧
    length new_subtasks = 9 ∧
    map (fun r => (py_getitem r "id", py_getitem r "title",
                   py_getitem r "dependencies")) new_subtasks =
      map (fun '(id, title, deps) =>
             (Ok (JInt id), Ok (JStr title), Ok (JList (map JInt deps))))
          literal_fields ∧
    lines = map (fun '(id, title, deps) => "  " ++ spec_line id title deps)
                literal_fields.
Proof.
  intros (data & h & fields & tasks & tfields & subtasks & rfields &
          Hload & Hloc & Hlen & Hadd & ->)%script_success.
  exists summary_lines. by split_and!.
Qed.

(** C8.  On a successful run the script opens the task file once for
    reading and once for writing, in that order, and nothing else; what it
    writes is [json.dump] with indent 2 of the whole document (the loaded
    document after lines 125-129, with the same top-level keys), and that
    text replaces the previous content of the same path. *)
Theorem C8_whole_document_written_once w w' :
  script w = (Ok tt, w') →
  ∃ content data h data' fields fields' indent,
    files w !! tasks_file = Some content ∧
    json_load content = Some data ∧
    find_task_20_13 data = Ok (Some h) ∧
    add_subtasks data h = Ok data' ∧
    io_log w' =
      (io_log w ++ [IoRead tasks_file;
                    IoWrite tasks_file (json_dump indent data')])%list ∧
    indent = 2 ∧
    files w' = <[tasks_file := json_dump indent data']> (files w) ∧
    files w' !! tasks_file = Some (json_dump indent data') ∧
    (∀ path, path ≠ tasks_file → files w' !! path = files w !! path) ∧
    data = JObj fields ∧ data' = JObj fields' ∧
    map fst fields' = map fst fields.
Proof.
  intros (data & h & fields & tasks & tfields & subtasks & rfields &
          Hload & Hloc & Hlen & Hadd & ->)%script_success.
  pose proof (located_find _ _ _ _ _ _ _ Hloc) as Hfind.
  destruct Hloc as [-> Htasks _ _ _ _ _ _ _ _].
  unfold loaded in Hload.
  destruct (files w !! tasks_file) as [content|] eqn:Hfile; [simpl in Hload|done].
  eexists content, (JObj fields), h, _, fields, _, 2.
  split_and!; try done.
  - simpl. by rewrite lookup_insert_eq.
  - intros path Hpath. simpl. by rewrite lookup_insert_ne.
  - by rewrite dict_store_keys.
Qed.

(** C9.  The outer loop ends at the first task whose id equals 20.  When the
    subtasks of that task all carry ids other than 13, the search finds
    nothing, whatever tasks follow, and the script takes the error path. *)
Theorem C9_only_first_task_20 w data tasks i task subtasks :
  loaded w = Some data →
  py_getitem data "tasks" = Ok (JList tasks) →
  tasks !! i = Some task →
  forallb (id_isnt 20) (take i tasks) = true →
  id_is 20 task = true →
  iter_subtasks task = Ok subtasks →
  forallb (id_isnt 13) subtasks = true →
  find_task_20_13 data = Ok None ∧
  script w = (Raise (SystemExit 1),
              World (files w) (stdout w ++ ["Error: Task 20.13 not found"])
                    (io_log w ++ [IoRead tasks_file])).
Proof.
  intros Hload Htasks Hi Hpre Hid Hsub Hnone.
  assert (find_task_20_13 data = Ok None) as Hfind.
  { unfold find_task_20_13. rewrite Htasks. simpl.
    erewrite scan_tasks_first by done. rewrite Hsub. simpl.
    by apply scan_subtasks_none. }
  split; [done|]. by eapply script_not_found.
Qed.

(** C10, amended.  On a successful run the written document has as many
    tasks as the loaded one, every task other than the owning one is what it
    was, the owning task has as many subtasks, and the record found keeps
    every entry other than ['subtasks'].  When the record found sits at
    index 12, every other subtask is what it was: the edit replaces one
    nested list and adds or removes no record.  When it sits at another
    index, the same holds except at index 12, where the subtask the input
    had is replaced by a second copy of the edited record. *)
Theorem C10_counts_and_other_fields w w' :
  script w = (Ok tt, w') →
  ∃ data data' h tasks tasks' subtasks subtasks' r',
    loaded w = Some data ∧
    find_task_20_13 data = Ok (Some h) ∧
    files w' !! tasks_file = Some (json_dump 2 data') ∧
    py_getitem data "tasks" = Ok (JList tasks) ∧
    py_getitem data' "tasks" = Ok (JList tasks') ∧
    length tasks' = length tasks ∧
    (∀ k, k ≠ owner h → tasks' !! k = tasks !! k) ∧
    subtasks_of data (owner h) = Ok (JList subtasks) ∧
    subtasks_of data' (owner h) = Ok (JList subtasks') ∧
    length subtasks' = length subtasks ∧
    subtasks !! position h = Some (record h) ∧
    subtasks' !! position h = Some r' ∧
    py_getitem r' "subtasks" = Ok (JList new_subtasks) ∧
    (∀ key, key ≠ "subtasks" → py_getitem r' key = py_getitem (record h) key) ∧
    (∀ k, k ≠ position h → k ≠ 12 → subtasks' !! k = subtasks !! k) ∧
    (position h = 12 → ∀ k, k ≠ 12 → subtasks' !! k = subtasks !! k) ∧
    (position h ≠ 12 → is_Some (subtasks !! 12) ∧ subtasks' !! 12 = Some r').
Proof.
  intros (data & h & fields & tasks & tfields & subtasks & rfields &
          Hload & Hloc & Hlen & Hadd & ->)%script_success.
  pose proof (located_find _ _ _ _ _ _ _ Hloc) as Hfind.
  destruct Hloc as [Ldata Ltasks Ltask Lpre20 Lid20 Lsubs Lrec Lpre13 Lid13 Lrf]; subst data; simpl in *.
  pose proof (lookup_lt_Some _ _ _ Lrec) as Hpos.
  set (subtasks' := <[12 := with_new_subtasks rfields]>
                      (<[position h := with_new_subtasks rfields]> subtasks)).
  set (task' := JObj (dict_store "subtasks" (JList subtasks') tfields)).
  exists (JObj fields), (edited h fields tasks tfields subtasks rfields), h,
    tasks, (<[owner h := task']> tasks), subtasks, subtasks',
    (with_new_subtasks rfields).
  assert (∀ k, k ≠ position h → k ≠ 12 → subtasks' !! k = subtasks !! k) as Hframe.
  { intros k Hk Hk12. unfold subtasks'. by rewrite !list_lookup_insert_ne. }
  split_and!; try done.
  - by rewrite lookup_insert_eq.
  - simpl. by rewrite Ltasks.
  - by apply rebuilt_tasks.
  - by rewrite length_insert.
  - intros k Hk. by apply list_lookup_insert_ne.
  - by eapply subtasks_of_eq.
  - by eapply rebuilt_subtasks.
  - unfold subtasks'. by rewrite !length_insert.
  - unfold subtasks'. destruct (decide (position h = 12)) as [->|Hne].
    + apply list_lookup_insert_eq. by rewrite length_insert.
    + rewrite list_lookup_insert_ne by done. by apply list_lookup_insert_eq.
  - simpl. by rewrite dict_lookup_store_eq.
  - intros key Hkey. rewrite Lrf. simpl. by rewrite dict_lookup_store_ne.
  - intros Heq k Hk. apply Hframe; [by rewrite Heq|done].
  - intros Hne. split; [by apply lookup_lt_is_Some|].
    unfold subtasks'. apply list_lookup_insert_eq. by rewrite length_insert.
Qed.

End Properties.

(** ** The properties at concrete documents *)

(** C1 as stated fails: the second task of the document has id 20 and its
    subtask at index 12 has id 13, yet the script takes the error path and
    the file keeps the document, that subtask included, as it was. *)
Lemma C1_counterexample :
  (∃ task subtasks s,
      py_getitem two_tasks_20_doc "tasks" ≫= (fun tasks => py_index tasks 1) = Ok task ∧
      id_is 20 task = true ∧
      py_getitem task "subtasks" = Ok (JList subtasks) ∧
      subtasks !! 12 = Some s ∧ id_is 13 s = true ∧
      py_getitem s "subtasks" = Raise KeyError) ∧
  script (world_of two_tasks_20_doc) =
    (Raise (SystemExit 1),
     World {[ tasks_file := Rendered 0 two_tasks_20_doc ]}
           ["Error: Task 20.13 not found"] [IoRead tasks_file]).
Proof.
  split; [|reflexivity].
  exists (JObj [("id", JInt 20); ("subtasks", JList thirteen)]), thirteen, (stub 13).
  by split_and!.
Qed.

(** C1 at the well-formed document. *)
Lemma C1_witness :
  ∃ data' subtasks' s' r5,
    script (world_of well_formed_doc) = (Ok tt, written (world_of well_formed_doc) data') ∧
    files (written (world_of well_formed_doc) data') !! tasks_file
      = Some (json_dump 2 data') ∧
    subtasks_of data' 1 = Ok (JList subtasks') ∧
    subtasks' !! 12 = Some s' ∧
    py_getitem s' "subtasks" = Ok (JList new_subtasks) ∧
    (∀ key, key ≠ "subtasks" → py_getitem s' key = py_getitem (stub 13) key) ∧
    length new_subtasks = 9 ∧
    map (fun r => py_getitem r "id") new_subtasks =
      map (fun n => Ok (JInt n)) [1; 2; 3; 4; 5; 6; 7; 8; 9]%Z ∧
    new_subtasks !! 4 = Some r5 ∧
    py_getitem r5 "id" = Ok (JInt 5) ∧
    py_getitem r5 "title" = Ok (JStr "Kanban View Implementation") ∧
    py_getitem r5 "dependencies" = Ok (JList [JInt 1; JInt 3]).
Proof.
  apply (C1_replaces_subtasks_of_first_task_20 (world_of well_formed_doc)
           well_formed_doc
           [JObj [("id", JInt 19)];
            JObj [("id", JInt 20); ("subtasks", JList thirteen)]]
           1 (JObj [("id", JInt 20); ("subtasks", JList thirteen)])
           thirteen (stub 13));
    reflexivity.
Defined.

(** C2 at the document without a task 20. *)
Lemma C2_witness :
  ∃ r w',
    script (world_of no_task_20_doc) = (r, w') ∧
    exit_status r = 1%Z ∧ exit_status r ≠ 0%Z ∧
    stdout w' = ["Error: Task 20.13 not found"] ∧
    files w' = {[ tasks_file := Rendered 0 no_task_20_doc ]} ∧
    io_log w' = [IoRead tasks_file].
Proof.
  apply (C2_not_found_exits_unmodified (world_of no_task_20_doc) no_task_20_doc);
    reflexivity.
Defined.

(** C3 at a document in which id 13 sits at index 2: the record that was at
    index 12 gives way to the one found. *)
Lemma C3_witness :
  script (world_of misplaced_doc) = (Ok tt, (script (world_of misplaced_doc)).2) ∧
  ∃ data data' h subtasks r',
    loaded (world_of misplaced_doc) = Some data ∧
    find_task_20_13 data = Ok (Some h) ∧
    files (script (world_of misplaced_doc)).2 !! tasks_file = Some (json_dump 2 data') ∧
    subtasks_of data (owner h) = Ok (JList subtasks) ∧
    subtasks !! position h = Some (record h) ∧
    py_setitem (record h) "subtasks" (JList new_subtasks) = Ok r' ∧
    12 < length subtasks ∧
    subtasks_of data' (owner h) =
      Ok (JList (<[12 := r']> (<[position h := r']> subtasks))) ∧
    <[12 := r']> (<[position h := r']> subtasks) !! 12 = Some r' ∧
    <[12 := r']> (<[position h := r']> subtasks) !! position h = Some r' ∧
    (position h = 12 →
       <[12 := r']> (<[position h := r']> subtasks) = <[position h := r']> subtasks) ∧
    (position h ≠ 12 →
       is_Some (subtasks !! 12) ∧
       <[position h := r']> subtasks !! 12 = subtasks !! 12).
Proof.
  split; [vm_compute; reflexivity|].
  apply (C3_store_at_index_12 (world_of misplaced_doc)
           (script (world_of misplaced_doc)).2).
  vm_compute. reflexivity.
Defined.

(** C4 as stated fails: the second task of the document has id 20 and a
    subtask with id 13, yet the search finds nothing and the script takes
    the error path. *)
Lemma C4_counterexample :
  (∃ task subtasks s,
      py_getitem late_match_doc "tasks" ≫= (fun tasks => py_index tasks 1) = Ok task ∧
      id_is 20 task = true ∧
      py_getitem task "subtasks" = Ok (JList subtasks) ∧
      subtasks !! 0 = Some s ∧ id_is 13 s = true) ∧
  find_task_20_13 late_match_doc = Ok None ∧
  script (world_of late_match_doc) =
    (Raise (SystemExit 1),
     World {[ tasks_file := Rendered 0 late_match_doc ]}
           ["Error: Task 20.13 not found"] [IoRead tasks_file]).
Proof.
  split; [|split; reflexivity].
  exists (JObj [("id", JInt 20); ("subtasks", JList [stub 13])]), [stub 13], (stub 13).
  by split_and!.
Qed.

(** C4 at the well-formed document: the subtask with id 13 is found at
    index 12 of the task at index 1. *)
Lemma C4_witness :
  find_task_20_13 well_formed_doc = Ok (Some (Hit 1 12 (stub 13))) ∧
  (∀ w : world rendered,
     loaded w = Some well_formed_doc → (script w).1 ≠ Raise (SystemExit 1)) ∧
  (12 < length thirteen →
   ∀ w : world rendered, loaded w = Some well_formed_doc →
     ∃ data', script w = (Ok tt, written w data')).
Proof.
  apply (proj1 (C4_locator_first_task_20 well_formed_doc
                  [JObj [("id", JInt 19)];
                   JObj [("id", JInt 20); ("subtasks", JList thirteen)]]
                  eq_refl)
           1 (JObj [("id", JInt 20); ("subtasks", JList thirteen)]) thirteen
           12 (stub 13));
    reflexivity.
Defined.


(** C6 at the well-formed document. *)
Lemma C6_witness :
  script (world_of well_formed_doc) = (Ok tt, (script (world_of well_formed_doc)).2) ∧
  ∃ data data' h tasks tasks' task task' subtasks subtasks',
    loaded (world_of well_formed_doc) = Some data ∧
    find_task_20_13 data = Ok (Some h) ∧
    files (script (world_of well_formed_doc)).2 !! tasks_file = Some (json_dump 2 data') ∧
    (∀ key, key ≠ "tasks" → py_getitem data' key = py_getitem data key) ∧
    py_getitem data "tasks" = Ok (JList tasks) ∧
    py_getitem data' "tasks" = Ok (JList tasks') ∧
    (∀ k, k ≠ owner h → tasks' !! k = tasks !! k) ∧
    tasks !! owner h = Some task ∧
    tasks' !! owner h = Some task' ∧
    (∀ key, key ≠ "subtasks" → py_getitem task' key = py_getitem task key) ∧
    py_getitem task "subtasks" = Ok (JList subtasks) ∧
    py_getitem task' "subtasks" = Ok (JList subtasks') ∧
    (∀ k, k ≠ position h → k ≠ 12 → subtasks' !! k = subtasks !! k).
Proof.
  split; [vm_compute; reflexivity|].
  apply (C6_frame (world_of well_formed_doc) (script (world_of well_formed_doc)).2).
  vm_compute. reflexivity.
Defined.

(** C7 at the well-formed document. *)
Lemma C7_witness :
  script (world_of well_formed_doc) = (Ok tt, (script (world_of well_formed_doc)).2) ∧
  ∃ lines,
    stdout (script (world_of well_formed_doc)).2 =
      ([] ++ ["✅ Successfully added 9 subtasks to Task 20.13";
              String "010"%char "Subtasks added:"] ++ lines)%list ∧
    lines =
      [ "  20.13.1 - View Switching Infrastructure";
        "  20.13.2 - View-Specific Filtering UI (depends on: 1)";
        "  20.13.3 - Drag & Drop Infrastructure";
        "  20.13.4 - Gallery View Implementation (depends on: 1)";
        "  20.13.5 - Kanban View Implementation (depends on: 1, 3)";
        "  20.13.6 - Calendar View Implementation (depends on: 1, 2)";
        "  20.13.7 - Timeline View Implementation (depends on: 1, 2)";
        "  20.13.8 - View Performance Optimization (depends on: 4, 5, 6, 7)";
        "  20.13.9 - View Testing & Integration (depends on: 8)" ] ∧
    length lines = 9 ∧
    length new_subtasks = 9 ∧
    map (fun r => (py_getitem r "id", py_getitem r "title",
                   py_getitem r "dependencies")) new_subtasks =
      map (fun '(id, title, deps) =>
             (Ok (JInt id), Ok (JStr title), Ok (JList (map JInt deps))))
          literal_fields ∧
    lines = map (fun '(id, title, deps) => "  " ++ spec_line id title deps)
                literal_fields.
Proof.
  split; [vm_compute; reflexivity|].
  apply (C7_summary_lines (world_of well_formed_doc)
           (script (world_of well_formed_doc)).2).
  vm_compute. reflexivity.
Defined.

(** C8 at the well-formed document. *)
Lemma C8_witness :
  script (world_of well_formed_doc) = (Ok tt, (script (world_of well_formed_doc)).2) ∧
  ∃ content data h data' fields fields' indent,
    files (world_of well_formed_doc) !! tasks_file = Some content ∧
    json_load content = Some data ∧
    find_task_20_13 data = Ok (Some h) ∧
    add_subtasks data h = Ok data' ∧
    io_log (script (world_of well_formed_doc)).2 =
      ([] ++ [IoRead tasks_file; IoWrite tasks_file (json_dump indent data')])%list ∧
    indent = 2 ∧
    files (script (world_of well_formed_doc)).2 =
      <[tasks_file := json_dump indent data']> (files (world_of well_formed_doc)) ∧
    files (script (world_of well_formed_doc)).2 !! tasks_file
      = Some (json_dump indent data') ∧
    (∀ path, path ≠ tasks_file →
       files (script (world_of well_formed_doc)).2 !! path
       = files (world_of well_formed_doc) !! path) ∧
    data = JObj fields ∧ data' = JObj fields' ∧
    map fst fields' = map fst fields.
Proof.
  split; [vm_compute; reflexivity|].
  apply (C8_whole_document_written_once (world_of well_formed_doc)
           (script (world_of well_formed_doc)).2).
  vm_compute. reflexivity.
Defined.

(** C9 at a document whose second task with id 20 does hold a subtask with
    id 13, at index 12. *)
Lemma C9_witness :
  find_task_20_13 shadowed_doc = Ok None ∧
  script (world_of shadowed_doc) =
    (Raise (SystemExit 1),
     World {[ tasks_file := Rendered 0 shadowed_doc ]}
           ["Error: Task 20.13 not found"] [IoRead tasks_file]).
Proof.
  apply (C9_only_first_task_20 (world_of shadowed_doc) shadowed_doc
           [JObj [("id", JInt 20); ("subtasks", JList [stub 1; stub 2])];
            JObj [("id", JInt 20); ("subtasks", JList thirteen)]]
           0 (JObj [("id", JInt 20); ("subtasks", JList [stub 1; stub 2])])
           [stub 1; stub 2]);
    reflexivity.
Defined.

(** C10 as stated fails: in the document in which id 13 sits at index 2 the
    run succeeds, and of the fourteen subtasks the one with id 12, which was
    at index 12, is gone from the written list, while id 13 occurs twice
    where it occurred once. *)
Lemma C10_counterexample :
  ∃ data' subtasks subtasks',
    script (world_of misplaced_doc) = (Ok tt, written (world_of misplaced_doc) data') ∧
    subtasks_of misplaced_doc 0 = Ok (JList subtasks) ∧
    subtasks_of data' 0 = Ok (JList subtasks') ∧
    subtasks !! 12 = Some (stub 12) ∧
    existsb (id_is 12) subtasks = true ∧
    existsb (id_is 12) subtasks' = false ∧
    length (List.filter (id_is 13) subtasks) = 1 ∧
    length (List.filter (id_is 13) subtasks') = 2.
Proof.
  eexists _, _, _. split_and!.
  - vm_compute. reflexivity.
  - reflexivity.
  - vm_compute. reflexivity.
  - reflexivity.
  - reflexivity.
  - reflexivity.
  - reflexivity.
  - reflexivity.
Qed.

(** C10 at the document in which id 13 sits at index 2. *)
Lemma C10_witness :
  script (world_of misplaced_doc) = (Ok tt, (script (world_of misplaced_doc)).2) ∧
  ∃ data data' h tasks tasks' subtasks subtasks' r',
    loaded (world_of misplaced_doc) = Some data ∧
    find_task_20_13 data = Ok (Some h) ∧
    files (script (world_of misplaced_doc)).2 !! tasks_file = Some (json_dump 2 data') ∧
    py_getitem data "tasks" = Ok (JList tasks) ∧
    py_getitem data' "tasks" = Ok (JList tasks') ∧
    length tasks' = length tasks ∧
    (∀ k, k ≠ owner h → tasks' !! k = tasks !! k) ∧
    subtasks_of data (owner h) = Ok (JList subtasks) ∧
    subtasks_of data' (owner h) = Ok (JList subtasks') ∧
    length subtasks' = length subtasks ∧
    subtasks !! position h = Some (record h) ∧
    subtasks' !! position h = Some r' ∧
    py_getitem r' "subtasks" = Ok (JList new_subtasks) ∧
    (∀ key, key ≠ "subtasks" → py_getitem r' key = py_getitem (record h) key) ∧
    (∀ k, k ≠ position h → k ≠ 12 → subtasks' !! k = subtasks !! k) ∧
    (position h = 12 → ∀ k, k ≠ 12 → subtasks' !! k = subtasks !! k) ∧
    (position h ≠ 12 → is_Some (subtasks !! 12) ∧ subtasks' !! 12 = Some r').
Proof.
  split; [vm_compute; reflexivity|].
  apply (C10_counts_and_other_fields (world_of misplaced_doc)
           (script (world_of misplaced_doc)).2).
  vm_compute. reflexivity.
Defined.

(** ** Further facts about the search and the run *)

(** A key that is absent goes to the end of the keys. *)
Lemma dict_store_keys_new key v fields :
  dict_lookup key fields = None →
  map fst (dict_store key v fields) = (map fst fields ++ [key])%list.
Proof.
  induction fields as [|[k w] rest IH]; simpl; [done|].
  destruct (String.eqb k key); [done|]. intros H. simpl. by rewrite IH.
Qed.

Lemma add_subtasks_raises data h e :
  find_task_20_13 data = Ok (Some h) →
  add_subtasks data h = Raise e → e = IndexError.
Proof.
  intros (fields & tasks & tfields & subtasks & rfields & Hloc)%find_located.
  rewrite (add_subtasks_located _ _ _ _ _ _ _ Hloc).
  destruct (decide (12 < length subtasks)); [done|]. by intros [= <-].
Qed.

(** What [str] gives for a list of integers within the limit. *)
Lemma map_res_py_str_ints (ns : list Z) :
  Forall (fun n => (digits n ≤ int_max_str_digits)%nat) ns →
  map_res py_str (map JInt ns) = Ok (map pretty ns).
Proof.
  induction 1 as [|n ns Hn _ IH]; [done|].
  apply Nat.leb_le in Hn. cbn [map map_res py_str]. rewrite Hn.
  cbn [mbind res_bind]. rewrite IH. by cbn.
Qed.

(** The separator goes between the parts as in the library's
    [String.concat]. *)
Lemma join_concat sep parts : join sep parts = String.concat sep parts.
Proof.
  induction parts as [|p rest IH]; [done|].
  destruct rest as [|q rest]; [done|].
  change (p ++ sep ++ join sep (q :: rest) = p ++ sep ++ String.concat sep (q :: rest)).
  by rewrite IH.
Qed.


(** ** Further properties of the script *)

Section Further.
Context {text : Type} `{!JsonCodec text}.
Implicit Types (w : world text).

(** X2.  A run ends with [exit(1)] exactly when the task file decodes to a
    document in which the search completes without a match; no fault of the
    search or of the edit ends in that status by way of [SystemExit]. *)
Theorem X2_exit_1_iff_search_without_match w :
  (script w).1 = Raise (SystemExit 1) ↔
  ∃ data, loaded w = Some data ∧ find_task_20_13 data = Ok None.
Proof.
  split.
  - rewrite script_eq. unfold loaded.
    destruct (files w !! tasks_file) as [content|]; [simpl|done].
    destruct (json_load content) as [data|]; [|done].
    destruct (find_task_20_13 data) as [[h|]|e] eqn:Hfind.
    + destruct (add_subtasks data h) as [data'|e] eqn:Hadd; [done|].
      simpl. intros [= ->]. by apply (add_subtasks_raises _ _ _ Hfind) in Hadd.
    + intros _. by exists data.
    + simpl. intros [= ->]. by apply find_raises in Hfind as [|].
  - intros (data & Hload & Hfind). by erewrite script_not_found.
Qed.

(** X3.  When the search finds the subtask but the owning task has at most
    12 subtasks, the store of line 129 raises [IndexError]: the run ends
    with status 1 having printed nothing and written nothing, although line
    126 has already run. *)
Theorem X3_short_list_index_error w data h subtasks :
  loaded w = Some data →
  find_task_20_13 data = Ok (Some h) →
  subtasks_of data (owner h) = Ok (JList subtasks) →
  (length subtasks ≤ 12)%nat →
  script w = (Raise IndexError,
              World (files w) (stdout w) (io_log w ++ [IoRead tasks_file])) ∧
  exit_status (Raise IndexError) = 1%Z.
Proof.
  intros Hload Hfind Hsub Hlen. split; [|done].
  destruct (find_located _ _ Hfind)
    as (fields & tasks & tfields & subtasks0 & rfields & Hloc).
  pose proof (add_subtasks_located _ _ _ _ _ _ _ Hloc) as Hadd.
  assert (subtasks0 = subtasks) as ->.
  { destruct Hloc as [-> Ltasks Ltask _ _ Lsubs _ _ _ _].
    erewrite subtasks_of_eq in Hsub by done. by injection Hsub. }
  destruct (decide (12 < length subtasks)); [lia|].
  by erewrite script_edit_raises.
Qed.

(** X4.  Nothing is written unless lines 125-129 have run to their end:
    when the task file does not load, when the search finds nothing or
    raises, and when the edit raises, the file store is as it was, the only
    file operation the run can have added is the read of the task file, and
    the only thing it can have printed is the error line. *)
Theorem X4_nothing_written_unless_edit_completes w :
  (∀ data h data',
      loaded w = Some data →
      find_task_20_13 data = Ok (Some h) →
      add_subtasks data h = Ok data' → False) →
  files (script w).2 = files w ∧
  (io_log (script w).2 = io_log w ∨
   io_log (script w).2 = (io_log w ++ [IoRead tasks_file])%list) ∧
  (stdout (script w).2 = stdout w ∨
   stdout (script w).2 = (stdout w ++ ["Error: Task 20.13 not found"])%list).
Proof.
  unfold loaded. rewrite script_eq.
  destruct (files w !! tasks_file) as [content|]; simpl;
    [|intros _; split_and!; [done|by left|by left]].
  destruct (json_load content) as [data|];
    [|intros _; split_and!; [done|by right|by left]].
  destruct (find_task_20_13 data) as [[h|]|e'] eqn:Hfind.
  - destruct (add_subtasks data h) as [data'|e''] eqn:Hadd.
    + intros H. by destruct (H data h data').
    + intros _. split_and!; [done|by right|by left].
  - intros _. split_and!; [done|by right|by right].
  - intros _. split_and!; [done|by right|by left].
Qed.

(** X5.  Whatever the search returns is what it was looking for: the index
    returned is that of the first task whose id equals 20, and the record
    returned is the first element of that task's ['subtasks'] list whose id
    equals 13, at the position returned. *)
Theorem X5_search_sound data h :
  find_task_20_13 data = Ok (Some h) →
  ∃ tasks task subtasks,
    py_getitem data "tasks" = Ok (JList tasks) ∧
    tasks !! owner h = Some task ∧
    id_is 20 task = true ∧
    forallb (id_isnt 20) (take (owner h) tasks) = true ∧
    py_getitem task "subtasks" = Ok (JList subtasks) ∧
    subtasks !! position h = Some (record h) ∧
    id_is 13 (record h) = true ∧
    forallb (id_isnt 13) (take (position h) subtasks) = true.
Proof.
  intros (fields & tasks & tfields & subtasks & rfields & Hloc)%find_located.
  destruct Hloc as [-> Ltasks Ltask Lpre20 Lid20 Lsubs Lrec Lpre13 Lid13 _].
  exists tasks, (JObj tfields), subtasks. simpl.
  rewrite Ltasks, Lsubs. by split_and!.
Qed.

(** X6.  The tasks after the first task with id 20 are never read: two
    documents whose task lists agree up to and including that task give the
    same search result, be it a match, no match or a fault, whatever
    follows, records or not. *)
Theorem X6_later_tasks_never_read data data' pre task post post' :
  py_getitem data "tasks" = Ok (JList (pre ++ task :: post)) →
  py_getitem data' "tasks" = Ok (JList (pre ++ task :: post')) →
  forallb (id_isnt 20) pre = true →
  id_is 20 task = true →
  find_task_20_13 data = find_task_20_13 data'.
Proof.
  intros Hdata Hdata' Hpre Hid. unfold find_task_20_13.
  rewrite Hdata, Hdata'. simpl.
  rewrite !scan_tasks_skip by done. by rewrite !scan_tasks_stop.
Qed.

(** X7.  A first task with id 20 that has no ['subtasks'] entry does not
    raise [KeyError]: [get] supplies an empty list, the search finds nothing
    and the run takes the error path. *)
Theorem X7_task_20_without_subtasks_entry w data tasks i tfields :
  loaded w = Some data →
  py_getitem data "tasks" = Ok (JList tasks) →
  tasks !! i = Some (JObj tfields) →
  forallb (id_isnt 20) (take i tasks) = true →
  id_is 20 (JObj tfields) = true →
  dict_lookup "subtasks" tfields = None →
  find_task_20_13 data = Ok None ∧
  script w = (Raise (SystemExit 1),
              World (files w) (stdout w ++ ["Error: Task 20.13 not found"])
                    (io_log w ++ [IoRead tasks_file])).
Proof.
  intros Hload Htasks Hi Hpre Hid Hnone.
  assert (find_task_20_13 data = Ok None) as Hfind.
  { unfold find_task_20_13. rewrite Htasks. simpl.
    erewrite scan_tasks_first by done.
    unfold iter_subtasks. simpl. by rewrite Hnone. }
  split; [done|]. by eapply script_not_found.
Qed.

(** X8.  A first task with id 20 whose ['subtasks'] entry cannot be
    iterated ([null], a number, a boolean) ends the run with [TypeError]:
    status 1, nothing printed, nothing written. *)
Theorem X8_subtasks_not_iterable w data tasks i task v :
  loaded w = Some data →
  py_getitem data "tasks" = Ok (JList tasks) →
  tasks !! i = Some task →
  forallb (id_isnt 20) (take i tasks) = true →
  id_is 20 task = true →
  py_getitem task "subtasks" = Ok v →
  py_iter v = Raise TypeError →
  find_task_20_13 data = Raise TypeError ∧
  script w = (Raise TypeError,
              World (files w) (stdout w) (io_log w ++ [IoRead tasks_file])) ∧
  exit_status (Raise TypeError) = 1%Z.
Proof.
  intros Hload Htasks Hi Hpre Hid Hv Hiter.
  assert (find_task_20_13 data = Raise TypeError) as Hfind.
  { unfold find_task_20_13. rewrite Htasks. simpl.
    erewrite scan_tasks_first by done.
    destruct (id_is_dict _ _ Hid) as [tfields ->].
    unfold iter_subtasks. simpl in *.
    destruct (dict_lookup "subtasks" tfields); [|done].
    injection Hv as ->. simpl. by rewrite Hiter. }
  split_and!; [done| |done]. by erewrite script_search_raises.
Qed.

(** X9.  A task reached by the outer loop on which [task['id']] raises (a
    record without that entry, or a value that is not a record) ends the
    run with that exception, [KeyError] or [TypeError]: nothing is printed
    and nothing is written, even when a later task holds the subtask. *)
Theorem X9_task_without_id w data tasks i task e :
  loaded w = Some data →
  py_getitem data "tasks" = Ok (JList tasks) →
  tasks !! i = Some task →
  forallb (id_isnt 20) (take i tasks) = true →
  py_getitem task "id" = Raise e →
  (e = KeyError ∨ e = TypeError) ∧
  find_task_20_13 data = Raise e ∧
  script w = (Raise e, World (files w) (stdout w) (io_log w ++ [IoRead tasks_file])).
Proof.
  intros Hload Htasks Hi Hpre He.
  assert (find_task_20_13 data = Raise e) as Hfind.
  { unfold find_task_20_13. rewrite Htasks. simpl.
    rewrite <- (take_drop_middle tasks i task Hi).
    rewrite scan_tasks_skip by done. simpl. by rewrite He. }
  split_and!; [by eapply py_getitem_raises|done|].
  by erewrite script_search_raises.
Qed.

(** X10.  Likewise in the inner loop: an element of the subtask list of the
    first task with id 20 that is reached before any id 13 and on which
    [subtask['id']] raises ends the run with that exception, even when the
    subtask with id 13 follows it in the list. *)
Theorem X10_subtask_without_id w data tasks i task subtasks j s e :
  loaded w = Some data →
  py_getitem data "tasks" = Ok (JList tasks) →
  tasks !! i = Some task →
  forallb (id_isnt 20) (take i tasks) = true →
  id_is 20 task = true →
  py_getitem task "subtasks" = Ok (JList subtasks) →
  subtasks !! j = Some s →
  forallb (id_isnt 13) (take j subtasks) = true →
  py_getitem s "id" = Raise e →
  (e = KeyError ∨ e = TypeError) ∧
  find_task_20_13 data = Raise e ∧
  script w = (Raise e, World (files w) (stdout w) (io_log w ++ [IoRead tasks_file])).
Proof.
  intros Hload Htasks Hi Hpre Hid Hsub Hj Hspre He.
  assert (find_task_20_13 data = Raise e) as Hfind.
  { unfold find_task_20_13. rewrite Htasks. simpl.
    erewrite scan_tasks_first by done.
    destruct (id_is_dict _ _ Hid) as [tfields ->].
    unfold iter_subtasks. simpl in *.
    destruct (dict_lookup "subtasks" tfields); [|done].
    injection Hsub as ->. simpl.
    rewrite <- (take_drop_middle subtasks j s Hj).
    rewrite scan_subtasks_skip by done. simpl. by rewrite He. }
  split_and!; [by eapply py_getitem_raises|done|].
  by erewrite script_search_raises.
Qed.

(** When the task file does not exist the run ends with
    [FileNotFoundError] before anything else happens; when it exists but
    does not decode, the run ends with the decoding error after the read.
    Either way nothing is printed and the file store is as it was. *)
Lemma script_unreadable_task_file w :
  (files w !! tasks_file = None →
   script w = (Raise FileNotFoundError, w)) ∧
  (∀ content,
     files w !! tasks_file = Some content →
     json_load content = None →
     script w = (Raise JSONDecodeError,
                 World (files w) (stdout w) (io_log w ++ [IoRead tasks_file]))).
Proof.
  split.
  - intros Hnone. rewrite script_eq. by rewrite Hnone.
  - intros content Hfile Hload. rewrite script_eq. by rewrite Hfile, Hload.
Qed.

(** X11.  On a successful run the keys of the record found keep their
    order: when the record already had a ['subtasks'] entry the new list
    takes its place, otherwise the key goes to the end.  The keys of the
    owning task keep their order too. *)
Theorem X11_key_order w w' :
  script w = (Ok tt, w') →
  ∃ data data' h tasks tasks' tfields tfields' subtasks' rfields rfields',
    loaded w = Some data ∧
    find_task_20_13 data = Ok (Some h) ∧
    files w' !! tasks_file = Some (json_dump 2 data') ∧
    py_getitem data "tasks" = Ok (JList tasks) ∧
    py_getitem data' "tasks" = Ok (JList tasks') ∧
    tasks !! owner h = Some (JObj tfields) ∧
    tasks' !! owner h = Some (JObj tfields') ∧
    map fst tfields' = map fst tfields ∧
    record h = JObj rfields ∧
    subtasks_of data' (owner h) = Ok (JList subtasks') ∧
    subtasks' !! position h = Some (JObj rfields') ∧
    map fst rfields' =
      match dict_lookup "subtasks" rfields with
      | Some _ => map fst rfields
      | None => (map fst rfields ++ ["subtasks"])%list
      end.
Proof.
  intros (data & h & fields & tasks & tfields & subtasks & rfields &
          Hload & Hloc & Hlen & Hadd & ->)%script_success.
  pose proof (located_find _ _ _ _ _ _ _ Hloc) as Hfind.
  destruct Hloc as [-> Ltasks Ltask Lpre20 Lid20 Lsubs Lrec Lpre13 Lid13 Lrf].
  pose proof (lookup_lt_Some _ _ _ Lrec) as Hpos.
  pose proof (lookup_lt_Some _ _ _ Ltask) as Hown.
  set (r' := with_new_subtasks rfields).
  set (subtasks' := <[12 := r']> (<[position h := r']> subtasks)).
  set (tfields' := dict_store "subtasks" (JList subtasks') tfields).
  exists (JObj fields), (edited h fields tasks tfields subtasks rfields), h,
    tasks, (<[owner h := JObj tfields']> tasks), tfields, tfields', subtasks',
    rfields, (dict_store "subtasks" (JList new_subtasks) rfields).
  split_and!; try done.
  - simpl. by rewrite lookup_insert_eq.
  - simpl. by rewrite Ltasks.
  - by apply rebuilt_tasks.
  - by apply list_lookup_insert_eq.
  - unfold tfields'. by rewrite dict_store_keys.
  - by eapply rebuilt_subtasks.
  - unfold subtasks'. destruct (decide (position h = 12)) as [->|Hne].
    + apply list_lookup_insert_eq. by rewrite length_insert.
    + rewrite list_lookup_insert_ne by done. by apply list_lookup_insert_eq.
  - destruct (dict_lookup "subtasks" rfields) eqn:Hold.
    + by rewrite dict_store_keys.
    + by apply dict_store_keys_new.
Qed.

(** X12.  On a successful run the ids along the owning task's subtask list
    are those of the loaded list with the id of the record found stored at
    index 12.  So the ids are unchanged when the record was at index 12, and
    otherwise the written list carries that id twice, at the old index and
    at index 12. *)
Theorem X12_ids_after_edit w w' :
  script w = (Ok tt, w') →
  ∃ data data' h subtasks subtasks',
    loaded w = Some data ∧
    find_task_20_13 data = Ok (Some h) ∧
    files w' !! tasks_file = Some (json_dump 2 data') ∧
    subtasks_of data (owner h) = Ok (JList subtasks) ∧
    subtasks_of data' (owner h) = Ok (JList subtasks') ∧
    map (fun s => py_getitem s "id") subtasks' =
      <[12 := py_getitem (record h) "id"]> (map (fun s => py_getitem s "id") subtasks) ∧
    (position h = 12 →
     map (fun s => py_getitem s "id") subtasks' =
       map (fun s => py_getitem s "id") subtasks) ∧
    (position h ≠ 12 →
     ∃ a b, subtasks' !! position h = Some a ∧ subtasks' !! 12 = Some b ∧
            id_is 13 a = true ∧ id_is 13 b = true).
Proof.
  intros (data & h & fields & tasks & tfields & subtasks & rfields &
          Hload & Hloc & Hlen & Hadd & ->)%script_success.
  pose proof (located_find _ _ _ _ _ _ _ Hloc) as Hfind.
  destruct Hloc as [-> Ltasks Ltask Lpre20 Lid20 Lsubs Lrec Lpre13 Lid13 Lrf].
  pose proof (lookup_lt_Some _ _ _ Lrec) as Hpos.
  set (r' := with_new_subtasks rfields).
  set (subtasks' := <[12 := r']> (<[position h := r']> subtasks)).
  assert (py_getitem r' "id" = py_getitem (record h) "id") as Hid.
  { rewrite Lrf. unfold r'. simpl. by rewrite dict_lookup_store_ne. }
  assert (id_is 13 r' = true) as Hid13.
  { unfold id_is in *. by rewrite Hid. }
  assert (map (fun s => py_getitem s "id") subtasks' =
          <[12 := py_getitem (record h) "id"]>
            (map (fun s => py_getitem s "id") subtasks)) as Hids.
  { unfold subtasks'. rewrite !list_fmap_insert, Hid. f_equal.
    apply list_insert_id. by rewrite list_lookup_fmap, Lrec. }
  exists (JObj fields), (edited h fields tasks tfields subtasks rfields), h,
    subtasks, subtasks'.
  split_and!; try done.
  - simpl. by rewrite lookup_insert_eq.
  - by eapply subtasks_of_eq.
  - by eapply rebuilt_subtasks.
  - intros Heq. rewrite Hids, <- Heq.
    apply list_insert_id. by rewrite list_lookup_fmap, Lrec.
  - intros Hne. exists r', r'. unfold subtasks'. split_and!; try done.
    + rewrite list_lookup_insert_ne by done. by apply list_lookup_insert_eq.
    + apply list_lookup_insert_eq. by rewrite length_insert.
Qed.

(** X13.  In the document a successful run has written, the search stops in
    the same task, on the edited record, at the smaller of the index it
    stopped at before and 12. *)
Theorem X13_search_after_edit w w' :
  script w = (Ok tt, w') →
  ∃ data data' h r',
    loaded w = Some data ∧
    find_task_20_13 data = Ok (Some h) ∧
    files w' !! tasks_file = Some (json_dump 2 data') ∧
    py_setitem (record h) "subtasks" (JList new_subtasks) = Ok r' ∧
    find_task_20_13 data' = Ok (Some (Hit (owner h) (position h `min` 12) r')).
Proof.
  intros (data & h & fields & tasks & tfields & subtasks & rfields &
          Hload & Hloc & Hlen & Hadd & ->)%script_success.
  pose proof (located_find _ _ _ _ _ _ _ Hloc) as Hfind.
  pose proof (located_edited _ _ _ _ _ _ _ Hloc Hlen) as Hloc'.
  exists data, (edited h fields tasks tfields subtasks rfields), h,
    (with_new_subtasks rfields).
  split_and!; try done.
  - simpl. by rewrite lookup_insert_eq.
  - destruct Hloc as [_ _ _ _ _ _ _ _ _ Lrf]. by rewrite Lrf.
  - by eapply located_find.
Qed.

(** X14.  For any record whose id is an integer, whose title is a string
    and whose dependencies are a list of integers, none of them of more than
    4300 digits, lines 138-139 produce two spaces, [20.13.<id> - <title>]
    and, exactly when the list is not empty, [ (depends on: ...)] with the
    dependencies separated by a comma and a space. *)
Theorem X14_summary_line_form subtask id title deps :
  py_getitem subtask "id" = Ok (JInt id) →
  py_getitem subtask "title" = Ok (JStr title) →
  py_getitem subtask "dependencies" = Ok (JList (map JInt deps)) →
  (digits id ≤ int_max_str_digits)%nat →
  Forall (fun d => (digits d ≤ int_max_str_digits)%nat) deps →
  summary_line subtask = Ok ("  " ++ spec_line id title deps).
Proof.
  intros Hid Htitle Hdeps Hlim Hlims. unfold summary_line, spec_line.
  apply Nat.leb_le in Hlim.
  rewrite Hdeps. cbn [mbind res_bind py_truthy]. rewrite length_map.
  destruct deps as [|d deps].
  - cbn [length Nat.eqb negb]. rewrite Hid. cbn [mbind res_bind py_str].
    rewrite Hlim, Htitle. by cbn.
  - cbn [length Nat.eqb negb py_iter]. cbn [mbind res_bind].
    rewrite map_res_py_str_ints by done. cbn [mbind res_bind].
    rewrite Hid. cbn [mbind res_bind py_str]. rewrite Hlim, Htitle.
    cbn [mbind res_bind py_str]. rewrite join_concat. by cbn.
Qed.

(** An integer of more than 4300 digits makes [str], and with it lines
    138-139, raise [ValueError]. *)
Lemma py_str_too_long n :
  (int_max_str_digits < digits n)%nat → py_str (JInt n) = Raise ValueError.
Proof.
  intros H. cbn [py_str].
  destruct (Nat.leb_spec (digits n) int_max_str_digits); [lia|done].
Qed.

(** X15.  The search raises nothing but [KeyError] and [TypeError], and
    after a hit lines 125-129 raise nothing but [IndexError], which they do
    only when the owning task has at most 12 subtasks. *)
Theorem X15_faults_of_search_and_edit data :
  (∀ e, find_task_20_13 data = Raise e → e = KeyError ∨ e = TypeError) ∧
  (∀ h e,
     find_task_20_13 data = Ok (Some h) →
     add_subtasks data h = Raise e →
     e = IndexError ∧
     ∃ subtasks,
       subtasks_of data (owner h) = Ok (JList subtasks) ∧
       (length subtasks ≤ 12)%nat).
Proof.
  split; [apply find_raises|].
  intros h e (fields & tasks & tfields & subtasks & rfields & Hloc)%find_located.
  rewrite (add_subtasks_located _ _ _ _ _ _ _ Hloc).
  destruct (decide (12 < length subtasks)); [done|]. intros [= <-].
  split; [done|]. exists subtasks. split; [|lia].
  destruct Hloc as [-> Ltasks Ltask _ _ Lsubs _ _ _ _].
  by eapply subtasks_of_eq.
Qed.

(** X16.  No run touches another path of the file store, and what was
    printed and logged before a run is still there after it, in front of
    what the run added. *)
Theorem X16_only_the_task_file w path :
  path ≠ tasks_file →
  files (script w).2 !! path = files w !! path ∧
  (∃ printed, stdout (script w).2 = (stdout w ++ printed)%list) ∧
  (∃ events, io_log (script w).2 = (io_log w ++ events)%list).
Proof.
  intros Hpath. rewrite script_eq.
  destruct (files w !! tasks_file) as [content|].
  2:{ split_and!; [done|exists []|exists []]; by rewrite app_nil_r. }
  destruct (json_load content) as [data|].
  2:{ split_and!; [done|exists []; by rewrite app_nil_r|by eexists]. }
  destruct (find_task_20_13 data) as [[h|]|e].
  - destruct (add_subtasks data h) as [data'|e]; simpl.
    + split_and!; [by rewrite lookup_insert_ne|by eexists|by eexists].
    + split_and!; [done|exists []; by rewrite app_nil_r|by eexists].
  - simpl. split_and!; [done|by eexists|by eexists].
  - simpl. split_and!; [done|exists []; by rewrite app_nil_r|by eexists].
Qed.

End Further.

(** ** The further properties at concrete documents *)

(** X2 at the document without a task 20. *)
Lemma X2_witness : (script (world_of no_task_20_doc)).1 = Raise (SystemExit 1).
Proof.
  apply (proj2 (X2_exit_1_iff_search_without_match (world_of no_task_20_doc))).
  exists no_task_20_doc. split; reflexivity.
Defined.

(** X3 at the document whose task 20 has a single subtask. *)
Lemma X3_witness :
  script (world_of short_list_doc) =
    (Raise IndexError,
     World {[ tasks_file := Rendered 0 short_list_doc ]} [] [IoRead tasks_file]) ∧
  exit_status (Raise IndexError) = 1%Z.
Proof.
  apply (X3_short_list_index_error (world_of short_list_doc) short_list_doc
           (Hit 0 0 (stub 13)) [stub 13]);
    [reflexivity|reflexivity|reflexivity|vm_compute; lia].
Defined.

(** X4 at the document whose task 20 has a single subtask. *)
Lemma X4_witness :
  files (script (world_of short_list_doc)).2 = files (world_of short_list_doc) ∧
  (io_log (script (world_of short_list_doc)).2 = io_log (world_of short_list_doc) ∨
   io_log (script (world_of short_list_doc)).2 =
     (io_log (world_of short_list_doc) ++ [IoRead tasks_file])%list) ∧
  (stdout (script (world_of short_list_doc)).2 = stdout (world_of short_list_doc) ∨
   stdout (script (world_of short_list_doc)).2 =
     (stdout (world_of short_list_doc) ++ ["Error: Task 20.13 not found"])%list).
Proof.
  apply (X4_nothing_written_unless_edit_completes (world_of short_list_doc)).
  intros data h data' Hload Hfind Hadd.
  vm_compute in Hload. injection Hload as <-.
  vm_compute in Hfind. injection Hfind as <-.
  vm_compute in Hadd. discriminate Hadd.
Defined.

(** X5 at the well-formed document. *)
Lemma X5_witness :
  ∃ tasks task subtasks,
    py_getitem well_formed_doc "tasks" = Ok (JList tasks) ∧
    tasks !! 1 = Some task ∧
    id_is 20 task = true ∧
    forallb (id_isnt 20) (take 1 tasks) = true ∧
    py_getitem task "subtasks" = Ok (JList subtasks) ∧
    subtasks !! 12 = Some (stub 13) ∧
    id_is 13 (stub 13) = true ∧
    forallb (id_isnt 13) (take 12 subtasks) = true.
Proof.
  apply (X5_search_sound well_formed_doc (Hit 1 12 (stub 13))).
  reflexivity.
Defined.

(** X6: a task that is not a record after task 20 changes nothing. *)
Lemma X6_witness :
  find_task_20_13 well_formed_doc = find_task_20_13 trailing_junk_doc.
Proof.
  apply (X6_later_tasks_never_read well_formed_doc trailing_junk_doc
           [JObj [("id", JInt 19)]]
           (JObj [("id", JInt 20); ("subtasks", JList thirteen)])
           [] [JStr "junk"]);
    reflexivity.
Defined.

(** X7 at the document whose first task 20 has no ['subtasks'] entry. *)
Lemma X7_witness :
  find_task_20_13 late_match_doc = Ok None ∧
  script (world_of late_match_doc) =
    (Raise (SystemExit 1),
     World {[ tasks_file := Rendered 0 late_match_doc ]}
           ["Error: Task 20.13 not found"] [IoRead tasks_file]).
Proof.
  apply (X7_task_20_without_subtasks_entry (world_of late_match_doc) late_match_doc
           [JObj [("id", JInt 20)];
            JObj [("id", JInt 20); ("subtasks", JList [stub 13])]]
           0 [("id", JInt 20)]);
    reflexivity.
Defined.

(** X8 at the document whose task 20 has [null] for subtasks. *)
Lemma X8_witness :
  find_task_20_13 null_subtasks_doc = Raise TypeError ∧
  script (world_of null_subtasks_doc) =
    (Raise TypeError,
     World {[ tasks_file := Rendered 0 null_subtasks_doc ]} [] [IoRead tasks_file]) ∧
  exit_status (Raise TypeError) = 1%Z.
Proof.
  apply (X8_subtasks_not_iterable (world_of null_subtasks_doc) null_subtasks_doc
           [JObj [("id", JInt 20); ("subtasks", JNull)]]
           0 (JObj [("id", JInt 20); ("subtasks", JNull)]) JNull);
    reflexivity.
Defined.

(** X9 at the document whose first task has no ['id'] entry. *)
Lemma X9_witness :
  (KeyError = KeyError ∨ KeyError = TypeError) ∧
  find_task_20_13 task_without_id_doc = Raise KeyError ∧
  script (world_of task_without_id_doc) =
    (Raise KeyError,
     World {[ tasks_file := Rendered 0 task_without_id_doc ]} [] [IoRead tasks_file]).
Proof.
  apply (X9_task_without_id (world_of task_without_id_doc) task_without_id_doc
           [JObj [("title", JStr "t")];
            JObj [("id", JInt 20); ("subtasks", JList thirteen)]]
           0 (JObj [("title", JStr "t")]) KeyError);
    reflexivity.
Defined.

(** X10 at the document whose task 20 has a string before its subtasks. *)
Lemma X10_witness :
  (TypeError = KeyError ∨ TypeError = TypeError) ∧
  find_task_20_13 subtask_not_record_doc = Raise TypeError ∧
  script (world_of subtask_not_record_doc) =
    (Raise TypeError,
     World {[ tasks_file := Rendered 0 subtask_not_record_doc ]} []
           [IoRead tasks_file]).
Proof.
  apply (X10_subtask_without_id (world_of subtask_not_record_doc)
           subtask_not_record_doc
           [JObj [("id", JInt 20); ("subtasks", JList (JStr "todo" :: thirteen))]]
           0 (JObj [("id", JInt 20); ("subtasks", JList (JStr "todo" :: thirteen))])
           (JStr "todo" :: thirteen) 0 (JStr "todo") TypeError);
    reflexivity.
Defined.

(** X11 at the document whose subtask 13 has its ['subtasks'] entry first. *)
Lemma X11_witness :
  script (world_of reordered_doc) = (Ok tt, (script (world_of reordered_doc)).2) ∧
  ∃ data data' h tasks tasks' tfields tfields' subtasks' rfields rfields',
    loaded (world_of reordered_doc) = Some data ∧
    find_task_20_13 data = Ok (Some h) ∧
    files (script (world_of reordered_doc)).2 !! tasks_file = Some (json_dump 2 data') ∧
    py_getitem data "tasks" = Ok (JList tasks) ∧
    py_getitem data' "tasks" = Ok (JList tasks') ∧
    tasks !! owner h = Some (JObj tfields) ∧
    tasks' !! owner h = Some (JObj tfields') ∧
    map fst tfields' = map fst tfields ∧
    record h = JObj rfields ∧
    subtasks_of data' (owner h) = Ok (JList subtasks') ∧
    subtasks' !! position h = Some (JObj rfields') ∧
    map fst rfields' =
      match dict_lookup "subtasks" rfields with
      | Some _ => map fst rfields
      | None => (map fst rfields ++ ["subtasks"])%list
      end.
Proof.
  split; [vm_compute; reflexivity|].
  apply (X11_key_order (world_of reordered_doc) (script (world_of reordered_doc)).2).
  vm_compute. reflexivity.
Defined.

(** X12 at the document in which id 13 sits at index 2. *)
Lemma X12_witness :
  script (world_of misplaced_doc) = (Ok tt, (script (world_of misplaced_doc)).2) ∧
  ∃ data data' h subtasks subtasks',
    loaded (world_of misplaced_doc) = Some data ∧
    find_task_20_13 data = Ok (Some h) ∧
    files (script (world_of misplaced_doc)).2 !! tasks_file = Some (json_dump 2 data') ∧
    subtasks_of data (owner h) = Ok (JList subtasks) ∧
    subtasks_of data' (owner h) = Ok (JList subtasks') ∧
    map (fun s => py_getitem s "id") subtasks' =
      <[12 := py_getitem (record h) "id"]> (map (fun s => py_getitem s "id") subtasks) ∧
    (position h = 12 →
     map (fun s => py_getitem s "id") subtasks' =
       map (fun s => py_getitem s "id") subtasks) ∧
    (position h ≠ 12 →
     ∃ a b, subtasks' !! position h = Some a ∧ subtasks' !! 12 = Some b ∧
            id_is 13 a = true ∧ id_is 13 b = true).
Proof.
  split; [vm_compute; reflexivity|].
  apply (X12_ids_after_edit (world_of misplaced_doc)
           (script (world_of misplaced_doc)).2).
  vm_compute. reflexivity.
Defined.

(** X13 at the document in which id 13 sits at index 2. *)
Lemma X13_witness :
  script (world_of misplaced_doc) = (Ok tt, (script (world_of misplaced_doc)).2) ∧
  ∃ data data' h r',
    loaded (world_of misplaced_doc) = Some data ∧
    find_task_20_13 data = Ok (Some h) ∧
    files (script (world_of misplaced_doc)).2 !! tasks_file = Some (json_dump 2 data') ∧
    py_setitem (record h) "subtasks" (JList new_subtasks) = Ok r' ∧
    find_task_20_13 data' = Ok (Some (Hit (owner h) (position h `min` 12) r')).
Proof.
  split; [vm_compute; reflexivity|].
  apply (X13_search_after_edit (world_of misplaced_doc)
           (script (world_of misplaced_doc)).2).
  vm_compute. reflexivity.
Defined.

(** X14 at a record with two dependencies. *)
Lemma X14_witness :
  summary_line (JObj [("id", JInt 42); ("title", JStr "Review");
                      ("dependencies", JList [JInt 7; JInt 11])]) =
    Ok "  20.13.42 - Review (depends on: 7, 11)".
Proof.
  apply (X14_summary_line_form
           (JObj [("id", JInt 42); ("title", JStr "Review");
                  ("dependencies", JList [JInt 7; JInt 11])])
           42 "Review" [7; 11]%Z);
    [reflexivity|reflexivity|reflexivity|apply Nat.leb_le; reflexivity|].
  constructor; [apply Nat.leb_le; reflexivity|].
  constructor; [apply Nat.leb_le; reflexivity|].
  constructor.
Defined.

(** X15 at the document whose task 20 has a single subtask. *)
Lemma X15_witness :
  IndexError = IndexError ∧
  ∃ subtasks,
    subtasks_of short_list_doc (owner (Hit 0 0 (stub 13))) = Ok (JList subtasks) ∧
    (length subtasks ≤ 12)%nat.
Proof.
  apply (proj2 (X15_faults_of_search_and_edit short_list_doc)
           (Hit 0 0 (stub 13)) IndexError);
    reflexivity.
Defined.

(** X16 in the world with a second file and an earlier line of output. *)
Lemma X16_witness :
  "notes.json" ≠ tasks_file ∧
  files (script two_files_world).2 !! "notes.json"
    = files two_files_world !! "notes.json" ∧
  (∃ printed, stdout (script two_files_world).2
              = (stdout two_files_world ++ printed)%list) ∧
  (∃ events, io_log (script two_files_world).2
             = (io_log two_files_world ++ events)%list).
Proof.
  split; [vm_compute; discriminate|].
  apply (X16_only_the_task_file two_files_world "notes.json").
  vm_compute. discriminate.
Defined.
